(** * The Athena connector for Evidence, embedded in Rocq

    A shallow embedding of [src/index.js]: the data the connector receives
    from the query service and hands to the host framework, the pure
    functions ([mapAthenaTypeToEvidenceType], [mapQueryResults], the date
    loop of the runner), and the asynchronous functions
    ([waitForQueryCompletion], [getQueryResults], the runner returned by
    [getRunner], [testConnection]) as interaction trees whose events are the
    calls the module makes on its environment: [client.send], [setTimeout]
    and [console.error].

    Conventions.
    - A JavaScript object used as a record with a fixed shape is a Rocq
      record; the row objects built by [mapQueryResults], whose keys are the
      column names of the query, are a finite map of own properties together
      with a prototype, read and written as the engine does it (the name
      [__proto__] reaches the accessor of [Object.prototype]).
    - A value that may be [undefined] or [null] is an [option].
    - A thrown exception, or a rejected promise, is the left summand of a
      sum; a fulfilled promise is the right one. *)

From stdpp Require Import gmap strings list fin_maps.
From ITree Require Import ITree ITreeFacts Events.State Events.StateFacts Props.Leaf.
From Paco Require Import paco.
From Stdlib Require Import ZArith Ascii.

Local Open Scope string_scope.
Local Open Scope Z_scope.

(** ** Values of the host language *)

(** Exceptions: [new Error(message)], the [TypeError] the engine raises on a
    property access on [undefined] or [null], and the rejections of the
    service client. *)
Inductive JsError : Type :=
| Error_ (message : string)
| TypeError (message : string)
| ServiceException (name : string) (message : string).

(** The time value of a [Date] object. [Date.parse] is computed here for the
    date-only form [YYYY-MM-DD] of the ECMAScript date-time string format,
    on which every engine agrees; for any other string the time value is the
    one the engine in use assigns to it (possibly NaN), which is kept
    symbolic as [EngineParsed s]. [EngineInherited p key] is the time value
    of [new Date(v)] for the [v] that a property lookup finds for [key]
    along the prototype chain that starts at [p]: a built-in of the engine,
    converted to a string that is the engine's and parsed, or nothing when
    the chain has no such property, and then the time value is NaN.

    A row object has one of two prototypes: [Object.prototype], as every
    object literal, or a [Date] object, once the date loop of the runner has
    assigned one to [__proto__]. *)
Inductive TimeValue : Type :=
| TimeMs (t : Z)
| NaN
| EngineParsed (s : string)
| EngineInherited (p : Prototype) (key : string)
with Prototype : Type :=
| Object_prototype
| Date_object (t : TimeValue).

(** The values stored in the own properties of a row object. *)
Inductive JsValue : Type :=
| undefined
| JsString (s : string)
| JsDate (t : TimeValue).

(** Truthiness of an optional string, as tested by [if (x)], [!x] and
    [while (x)]: [undefined], [null] and the empty string are falsy. *)
Definition truthy (x : option string) : bool :=
  match x with
  | Some s => negb (String.eqb s "")
  | None => false
  end.

(** ** [Date]: the date-only form of the date-time string format *)

Definition msPerDay : Z := 86400000.

Definition DayFromYear (y : Z) : Z :=
  365 * (y - 1970) + (y - 1969) / 4 - (y - 1901) / 100 + (y - 1601) / 400.

Definition InLeapYear (y : Z) : bool :=
  if negb (y mod 4 =? 0) then false
  else if negb (y mod 100 =? 0) then true
  else (y mod 400 =? 0).

Definition DaysInMonth (y m : Z) : Z :=
  if m =? 2 then (if InLeapYear y then 29 else 28)
  else if (m =? 4) || (m =? 6) || (m =? 9) || (m =? 11) then 30
  else 31.

(** Number of days of the year [y] before the first day of month [m]
    (1-based). *)
Fixpoint DaysBeforeMonth_aux (y : Z) (k : nat) : Z :=
  match k with
  | O => 0
  | S k' => DaysBeforeMonth_aux y k' + DaysInMonth y (Z.of_nat k)
  end.

Definition DaysBeforeMonth (y m : Z) : Z :=
  DaysBeforeMonth_aux y (Z.to_nat (m - 1)).

(** [MakeDay] for a month in 1..12 and a day of that month. *)
Definition MakeDay (y m d : Z) : Z :=
  DayFromYear y + DaysBeforeMonth y m + (d - 1).

Definition digit (c : ascii) : option Z :=
  let n := Z.of_N (N_of_ascii c) in
  if (48 <=? n) && (n <=? 57) then Some (n - 48) else None.

Definition digits2 (a b : ascii) : option Z :=
  match digit a, digit b with
  | Some x, Some y => Some (10 * x + y)
  | _, _ => None
  end.

Definition digits4 (a b c d : ascii) : option Z :=
  match digits2 a b, digits2 c d with
  | Some x, Some y => Some (100 * x + y)
  | _, _ => None
  end.

(** The fields of a string of the form [YYYY-MM-DD] that names a day of the
    calendar. *)
Definition parse_date_only (s : string) : option (Z * Z * Z) :=
  match String.list_ascii_of_string s with
  | [y1; y2; y3; y4; h1; m1; m2; h2; d1; d2] =>
      if Ascii.eqb h1 "-" && Ascii.eqb h2 "-" then
        match digits4 y1 y2 y3 y4, digits2 m1 m2, digits2 d1 d2 with
        | Some y, Some m, Some d =>
            if (1 <=? m) && (m <=? 12) && (1 <=? d) && (d <=? DaysInMonth y m)
            then Some (y, m, d) else None
        | _, _, _ => None
        end
      else None
  | _ => None
  end.

(** [Date.parse]: a date-only string denotes midnight UTC of that day. *)
Definition Date_parse (s : string) : TimeValue :=
  match parse_date_only s with
  | Some (y, m, d) => TimeMs (MakeDay y m d * msPerDay)
  | None => EngineParsed s
  end.

(** [new Date(value)] for the values a row can hold: a string is parsed,
    [undefined] gives an invalid date, a date is copied. *)
Definition new_Date (v : JsValue) : JsValue :=
  match v with
  | undefined => JsDate NaN
  | JsString s => JsDate (Date_parse s)
  | JsDate t => JsDate t
  end.

(** The UTC calendar date of a time value: [YearFromTime], [MonthFromTime]
    (1-based here) and [DateFromTime]. *)
Definition Day (t : Z) : Z := t / msPerDay.

Fixpoint YearFromDay_aux (fuel : nat) (y day : Z) : Z :=
  match fuel with
  | O => y
  | S fuel' =>
      if day <? DayFromYear y then YearFromDay_aux fuel' (y - 1) day
      else if DayFromYear (y + 1) <=? day then YearFromDay_aux fuel' (y + 1) day
      else y
  end.

Definition YearFromTime (t : Z) : Z :=
  YearFromDay_aux 8 (1970 + Day t / 365) (Day t).

Fixpoint MonthFromDay_aux (fuel : nat) (y m dayInYear : Z) : Z * Z :=
  match fuel with
  | O => (m, dayInYear + 1)
  | S fuel' =>
      if dayInYear <? DaysInMonth y m then (m, dayInYear + 1)
      else MonthFromDay_aux fuel' y (m + 1) (dayInYear - DaysInMonth y m)
  end.

Definition UTCDate (t : Z) : Z * Z * Z :=
  let y := YearFromTime t in
  let '(m, d) := MonthFromDay_aux 11 y 1 (Day t - DayFromYear y) in
  (y, m, d).

(** ** Row objects *)

(** An object created by [{}] and used as a row: its own properties, and
    its prototype. *)
Record RowObject : Type :=
  { properties : gmap string JsValue; prototype : Prototype }.

(** The object literal [{}]. *)
Definition empty_object : RowObject :=
  {| properties := ∅; prototype := Object_prototype |}.

(** [row !! key] is the own property [key] of [row], if it has one. *)
#[global] Instance RowObject_lookup : Lookup string JsValue RowObject :=
  fun key row => properties row !! key.

(** What [row[key]] evaluates to: the value of the own property, or what the
    lookup along the prototype chain gives. For [__proto__] that is the
    prototype itself, by the accessor of [Object.prototype]; for another
    name it is a built-in property of an object of the chain, or
    [undefined] when there is none. *)
Inductive PropertyRead : Type :=
| Own (v : JsValue)
| Inherited (p : Prototype) (key : string).

Definition get_property (row : RowObject) (key : string) : PropertyRead :=
  match properties row !! key with
  | Some v => Own v
  | None => Inherited (prototype row) key
  end.

(** [row[key] = v]. An own property is updated. Without one, the assignment
    goes up the prototype chain: [__proto__] is an accessor of
    [Object.prototype], whose setter makes an object (here a [Date]) the
    prototype of [row] and ignores a string or [undefined], creating no
    property; under any other name the built-ins of the chain are writable
    data properties, or there is none, and an own property is created. *)
Definition set_property (row : RowObject) (key : string) (v : JsValue)
  : RowObject :=
  match properties row !! key with
  | Some _ =>
      {| properties := <[key := v]> (properties row);
         prototype := prototype row |}
  | None =>
      if String.eqb key "__proto__" then
        match v with
        | JsDate t =>
            {| properties := properties row; prototype := Date_object t |}
        | _ => row
        end
      else
        {| properties := <[key := v]> (properties row);
           prototype := prototype row |}
  end.

(** The string-keyed properties of [Object.prototype] (ECMA-262, 20.1.3
    and B.2.2.1). *)
Definition Object_prototype_properties : list string :=
  ["constructor"; "hasOwnProperty"; "isPrototypeOf"; "propertyIsEnumerable";
   "toLocaleString"; "toString"; "valueOf"; "__defineGetter__";
   "__defineSetter__"; "__lookupGetter__"; "__lookupSetter__"; "__proto__"].

(** [new Date(row[key])], from what the read gave. Under [__proto__], a
    prototype that is a [Date] is copied, and [Object.prototype] converts to
    the string [[object Object]], which is parsed. Under another name, a row
    whose prototype is [Object.prototype] inherits a built-in if the name is
    that of one, and otherwise reads as [undefined], which makes an invalid
    date. *)
Definition new_Date_of (read : PropertyRead) : JsValue :=
  match read with
  | Own v => new_Date v
  | Inherited p key =>
      if String.eqb key "__proto__" then
        match p with
        | Date_object t => JsDate t
        | Object_prototype => JsDate (Date_parse "[object Object]")
        end
      else
        match p with
        | Object_prototype =>
            if existsb (String.eqb key) Object_prototype_properties
            then JsDate (EngineInherited p key)
            else new_Date undefined
        | Date_object _ => JsDate (EngineInherited p key)
        end
  end.

(** ** Data received from the query service *)

(** A cell of a raw row: [{ VarCharValue: "..." }], without the property
    for a null cell. *)
Record Datum : Type := { VarCharValue : option string }.

Record Row : Type := { Data : list Datum }.

(** [Type] is the native type tag of the column. *)
Record ColumnInfo_t : Type := { Name : string; Type_ : string }.

Record ResultSetMetadata_t : Type := { ColumnInfo : list ColumnInfo_t }.

(** The result set of a page of results: its rows, and the metadata of the
    columns, which every page carries. *)
Record ResultSet_t : Type :=
  { Rows : list Row; ResultSetMetadata : ResultSetMetadata_t }.

(** ** Data handed to the host framework *)

(** [EvidenceType] and [TypeFidelity] of [@evidence-dev/db-commons]; the
    members are string constants, given by [EvidenceType_value]. *)
Inductive EvidenceType : Type := BOOLEAN | NUMBER | STRING | DATE.

Definition EvidenceType_value (t : EvidenceType) : string :=
  match t with
  | BOOLEAN => "boolean"
  | NUMBER => "number"
  | STRING => "string"
  | DATE => "date"
  end.

Inductive TypeFidelity : Type := INFERRED | PRECISE.

Record ColumnType : Type :=
  { name : string; evidenceType : EvidenceType; typeFidelity : TypeFidelity }.

Record MappedOutput : Type :=
  { rows : list RowObject;
    columnTypes : list ColumnType;
    expectedRowCount : nat }.

(** What [getQueryResults] returns; [resultSetMetadata] starts as [null]. *)
Record QueryResults : Type :=
  { qr_rows : list Row; qr_resultSetMetadata : option ResultSetMetadata_t }.

(** ** The type mapper *)

(** A run of [case] labels that fall through to one body. *)
Definition case_of (tag : string) (labels : list string) : bool :=
  existsb (String.eqb tag) labels.

Definition mapAthenaTypeToEvidenceType (column : ColumnInfo_t) : ColumnType :=
  let tag := Type_ column in
  let type :=
    if case_of tag ["boolean"] then BOOLEAN
    else if case_of tag ["tinyint"; "smallint"; "int"; "integer"; "bigint";
                         "double"; "float"; "real"] then NUMBER
    else if case_of tag ["date"; "timestamp"] then DATE
    else if case_of tag ["string"; "char"; "varchar"] then STRING
    else if case_of tag ["array"] then STRING
    else if case_of tag ["map"] then STRING
    else if case_of tag ["struct"] then STRING
    else if case_of tag ["decimal"] then STRING
    else if case_of tag ["binary"] then STRING
    else STRING in
  {| name := Name column; evidenceType := type; typeFidelity := PRECISE |}.

(** The mapping table of the type mapper, as the specification lists it. *)
Definition mapping_table : list (string * EvidenceType) :=
  [ ("boolean", BOOLEAN);
    ("tinyint", NUMBER); ("smallint", NUMBER); ("int", NUMBER);
    ("integer", NUMBER); ("bigint", NUMBER); ("double", NUMBER);
    ("float", NUMBER); ("real", NUMBER);
    ("date", DATE); ("timestamp", DATE);
    ("string", STRING); ("char", STRING); ("varchar", STRING);
    ("array", STRING); ("map", STRING); ("struct", STRING);
    ("decimal", STRING); ("binary", STRING) ].

(** ** The result formatter *)

Definition value_of_Datum (data : Datum) : JsValue :=
  match VarCharValue data with
  | Some s => JsString s
  | None => undefined
  end.

(** The body of [row.Data.forEach((data, index) => ...)], from position
    [index] on. [columns[index]] is [undefined] past the end of [columns],
    and reading [.Name] of it throws. *)
Fixpoint forEach_Data (columns : list ColumnInfo_t) (data : list Datum)
    (index : nat) (mappedRow : RowObject)
  : JsError + RowObject :=
  match data with
  | [] => inr mappedRow
  | d :: rest =>
      match columns !! index with
      | None =>
          inl (TypeError "Cannot read properties of undefined (reading 'Name')")
      | Some column =>
          forEach_Data columns rest (S index)
            (set_property mappedRow (Name column) (value_of_Datum d))
      end
  end.

Definition mapRow (columns : list ColumnInfo_t) (row : Row)
  : JsError + RowObject :=
  forEach_Data columns (Data row) 0%nat empty_object.

(** [rows.map(f)] for an [f] that may throw: the first exception ends it. *)
Fixpoint map_throwing {A B : Type} (f : A -> JsError + B) (l : list A)
  : JsError + list B :=
  match l with
  | [] => inr []
  | x :: l' =>
      match f x with
      | inl e => inl e
      | inr y =>
          match map_throwing f l' with
          | inl e => inl e
          | inr ys => inr (y :: ys)
          end
      end
  end.

Definition mapQueryResults (queryResults : QueryResults)
  : JsError + MappedOutput :=
  match qr_resultSetMetadata queryResults with
  | None =>
      inl (TypeError "Cannot read properties of null (reading 'ColumnInfo')")
  | Some metadata =>
      let columns := ColumnInfo metadata in
      let rows := drop 1 (qr_rows queryResults) in
      match map_throwing (mapRow columns) rows with
      | inl e => inl e
      | inr mappedRows =>
          let columnTypes := List.map mapAthenaTypeToEvidenceType columns in
          inr {| rows := mappedRows;
                 columnTypes := columnTypes;
                 expectedRowCount := length mappedRows |}
      end
  end.

(** ** The date loop of the runner *)

(** [for (const column of output.columnTypes) if (column.evidenceType ===
    'date') row[column.name] = new Date(row[column.name])], on one row. *)
Definition reifyDates_row (columnTypes : list ColumnType)
    (row : RowObject) : RowObject :=
  fold_left
    (fun row column =>
       if String.eqb (EvidenceType_value (evidenceType column)) "date"
       then set_property row (name column)
              (new_Date_of (get_property row (name column)))
       else row)
    columnTypes row.

(** [for (const row of output.rows) ...]: the rows are distinct objects, each
    updated in place. *)
Definition reifyDates (output : MappedOutput) : MappedOutput :=
  {| rows := List.map (reifyDates_row (columnTypes output)) (rows output);
     columnTypes := columnTypes output;
     expectedRowCount := expectedRowCount output |}.

(** ** The query service, as the module sees it *)

Record ConnectorOptions : Type :=
  { database : string;
    catalog : string;
    outputBucket : string;
    testTableName : string }.

Inductive CredentialProvider : Type := fromIni (profile : string).

(** The configuration [new AthenaClient(...)] is given. *)
Record AthenaClient : Type :=
  { region : string; credentials : CredentialProvider }.

Record QueryExecutionContext_t : Type := { Database : string; Catalog : string }.

Record ResultConfiguration_t : Type := { OutputLocation : string }.

Record StartQueryExecutionInput : Type :=
  { QueryString : string;
    QueryExecutionContext : QueryExecutionContext_t;
    ResultConfiguration : ResultConfiguration_t }.

Record StartQueryExecutionOutput : Type := { QueryExecutionId : string }.

Record Status_t : Type := { State : string }.

Record QueryExecution_t : Type := { Status : Status_t }.

Record GetQueryExecutionOutput : Type := { QueryExecution : QueryExecution_t }.

Record GetQueryResultsOutput : Type :=
  { ResultSet : ResultSet_t; NextToken : option string }.

(** The three commands the module sends, indexed by the type of their
    output. *)
Variant Command : Type -> Type :=
| StartQueryExecutionCommand (params : StartQueryExecutionInput)
  : Command StartQueryExecutionOutput
| GetQueryExecutionCommand (QueryExecutionId : string)
  : Command GetQueryExecutionOutput
| GetQueryResultsCommand (QueryExecutionId : string) (NextToken : option string)
  : Command GetQueryResultsOutput.

(** The calls of the module on its environment: [client.send(command)],
    awaited, which is fulfilled with the output or rejected;
    [setTimeout(resolve, ms)], awaited; [console.error(label, error)]. *)
Variant connectorE : Type -> Type :=
| Send {R : Type} (client : AthenaClient) (command : Command R)
  : connectorE (JsError + R)
| SetTimeout (ms : Z) : connectorE unit
| ConsoleError (label : string) (error : JsError) : connectorE unit.

(** An [async] function returns a promise: a computation that ends
    fulfilled ([inr]) or rejected ([inl]). *)
Definition Promise (R : Type) : Type := itree connectorE (JsError + R).

(** [await p] followed by [k]: a rejection of [p] is thrown out of the
    [async] function that awaits it. *)
Definition await_bind {A B : Type} (p : Promise A) (k : A -> Promise B) : Promise B :=
  ITree.bind p (fun r => match r with
                         | inl e => Ret (inl e)
                         | inr a => k a
                         end).

Notation "x <- t ;; k" := (ITree.bind t (fun x => k))
  (at level 100, t at level 99, k at level 200, only parsing,
   right associativity).
Notation "'do' t ;; k" := (ITree.bind t (fun _ => k))
  (at level 100, t at level 99, k at level 200, only parsing,
   right associativity).
Notation "'await' x <- t ;; k" := (await_bind t (fun x => k))
  (at level 100, x name, t at level 99, k at level 200, only parsing,
   right associativity).

(** The state of the [do ... while] loop of [getQueryResults]. *)
Record PageLoop : Type :=
  { params_NextToken : option string;
    allRows : list Row;
    nextToken : option string;
    resultSetMetadata : option ResultSetMetadata_t }.

Section Module_body.

(** The module-level constant [client]. *)
Variable client : AthenaClient.

(** One turn of [while (true)]: [inl tt] goes round again, [inr] leaves the
    function, by [break] (fulfilled) or by [throw] (rejected). *)
Definition waitForQueryCompletion_body (queryExecutionId : string) (_ : unit)
  : itree connectorE (unit + (JsError + unit)) :=
  result <- ITree.trigger (Send client (GetQueryExecutionCommand queryExecutionId)) ;;
  match result with
  | inl e => Ret (inr (inl e))
  | inr result =>
      let status := State (Status (QueryExecution result)) in
      if String.eqb status "SUCCEEDED" then Ret (inr (inr tt))
      else if String.eqb status "FAILED" || String.eqb status "CANCELLED" then
        Ret (inr (inl (Error_ ("Query execution failed or was cancelled: "
                               ++ queryExecutionId))))
      else
        do ITree.trigger (SetTimeout 5000) ;;
        Ret (inl tt)
  end.

Definition waitForQueryCompletion (queryExecutionId : string) : Promise unit :=
  ITree.iter (waitForQueryCompletion_body queryExecutionId) tt.

(** One turn of [do { ... } while (nextToken)]. *)
Definition getQueryResults_body (queryExecutionId : string) (st : PageLoop)
  : itree connectorE (PageLoop + (JsError + QueryResults)) :=
  let params_NextToken :=
    if truthy (nextToken st) then nextToken st else params_NextToken st in
  response <- ITree.trigger
    (Send client (GetQueryResultsCommand queryExecutionId params_NextToken)) ;;
  match response with
  | inl e => Ret (inr (inl e))
  | inr response =>
      let resultSetMetadata :=
        match resultSetMetadata st with
        | None => Some (ResultSetMetadata (ResultSet response))
        | Some metadata => Some metadata
        end in
      let allRows := (allRows st ++ Rows (ResultSet response))%list in
      let nextToken := NextToken response in
      if truthy nextToken then
        Ret (inl {| params_NextToken := params_NextToken;
                    allRows := allRows;
                    nextToken := nextToken;
                    resultSetMetadata := resultSetMetadata |})
      else
        Ret (inr (inr {| qr_rows := allRows;
                         qr_resultSetMetadata := resultSetMetadata |}))
  end.

Definition getQueryResults (queryExecutionId : string) : Promise QueryResults :=
  ITree.iter (getQueryResults_body queryExecutionId)
    {| params_NextToken := None;
       allRows := [];
       nextToken := None;
       resultSetMetadata := None |}.

(** The [params] of the runner. *)
Definition runner_params (options : ConnectorOptions) (queryText : string)
  : StartQueryExecutionInput :=
  {| QueryString := queryText;
     QueryExecutionContext :=
       {| Database := database options; Catalog := catalog options |};
     ResultConfiguration :=
       {| OutputLocation := "s3://" ++ outputBucket options |} |}.

(** The [try] block of the runner. *)
Definition runner_try (options : ConnectorOptions) (queryText : string)
  : Promise MappedOutput :=
  let params := runner_params options queryText in
  await response <- ITree.trigger (Send client (StartQueryExecutionCommand params)) ;;
  let queryExecutionId := QueryExecutionId response in
  await _ <- waitForQueryCompletion queryExecutionId ;;
  await queryResults <- getQueryResults queryExecutionId ;;
  match mapQueryResults queryResults with
  | inl e => Ret (inl e)
  | inr output => Ret (inr (reifyDates output))
  end.

(** The runner: [None] is the [undefined] an [async] function returns when
    it ends without a [return]. *)
Definition getRunner (options : ConnectorOptions)
  : string -> string -> Promise (option MappedOutput) :=
  fun queryText queryPath =>
    r <- runner_try options queryText ;;
    match r with
    | inr output => Ret (inr (Some output))
    | inl error =>
        do ITree.trigger (ConsoleError "Error executing query:" error) ;;
        Ret (inr None)
    end.

End Module_body.

Definition testConnection (options : ConnectorOptions) : Promise bool :=
  Ret (inr true).

(** ** Loading the module *)

(** What the module exports once loaded. *)
Record Exports : Type :=
  { exports_getRunner :
      ConnectorOptions -> string -> string -> Promise (option MappedOutput);
    exports_testConnection : ConnectorOptions -> Promise bool }.

(** Loading runs the top level of the module on [process.env]: it returns
    the clients constructed on the way, in order, and either the exception
    thrown or the exports. *)
Definition load_module (env : gmap string string)
  : list AthenaClient * (JsError + Exports) :=
  let throw :=
    ([], inl (Error_ "Environment variable AUX_PROFILE is not set.")) in
  match env !! "AUX_PROFILE" with
  | None => throw
  | Some profile =>
      if negb (truthy (Some profile)) then throw
      else
        let client :=
          {| region := "us-east-1"; credentials := fromIni profile |} in
        ([client],
         inr {| exports_getRunner := getRunner client;
                exports_testConnection := testConnection |})
  end.

(** ** A scripted query service

    A stand-in for the environment, as a test double would be written: the
    answers to the successive calls of each kind are scripted, a call whose
    script is used up is rejected, and the service records the requests it
    received, the time waited and what was written to the console. *)

Inductive Request : Type :=
| Request_StartQueryExecution (params : StartQueryExecutionInput)
| Request_GetQueryExecution (QueryExecutionId : string)
| Request_GetQueryResults (QueryExecutionId : string) (NextToken : option string).

Definition request_of {R : Type} (command : Command R) : Request :=
  match command with
  | StartQueryExecutionCommand params => Request_StartQueryExecution params
  | GetQueryExecutionCommand id => Request_GetQueryExecution id
  | GetQueryResultsCommand id token => Request_GetQueryResults id token
  end.

Record Service : Type :=
  { submissions : list (JsError + StartQueryExecutionOutput);
    executions : list (JsError + GetQueryExecutionOutput);
    pages : list (JsError + GetQueryResultsOutput);
    received : list (AthenaClient * Request);
    elapsed : Z;
    console : list (string * JsError) }.

Definition script_exhausted : JsError :=
  ServiceException "ScriptExhausted" "no scripted answer left".

(** Take the next answer of a script. *)
Definition next_answer {R : Type} (script : list (JsError + R))
  : (JsError + R) * list (JsError + R) :=
  match script with
  | [] => (inl script_exhausted, [])
  | r :: rest => (r, rest)
  end.

Definition answer {R : Type} (command : Command R) (s : Service)
  : Service * (JsError + R) :=
  match command in Command R return Service * (JsError + R) with
  | StartQueryExecutionCommand _ =>
      let '(r, rest) := next_answer (submissions s) in
      ({| submissions := rest; executions := executions s; pages := pages s;
          received := received s; elapsed := elapsed s;
          console := console s |}, r)
  | GetQueryExecutionCommand _ =>
      let '(r, rest) := next_answer (executions s) in
      ({| submissions := submissions s; executions := rest; pages := pages s;
          received := received s; elapsed := elapsed s;
          console := console s |}, r)
  | GetQueryResultsCommand _ _ =>
      let '(r, rest) := next_answer (pages s) in
      ({| submissions := submissions s; executions := executions s;
          pages := rest; received := received s; elapsed := elapsed s;
          console := console s |}, r)
  end.

Definition receive {R : Type} (client : AthenaClient) (command : Command R)
    (s : Service) : Service :=
  {| submissions := submissions s; executions := executions s;
     pages := pages s;
     received := (received s ++ [(client, request_of command)])%list;
     elapsed := elapsed s; console := console s |}.

Definition stub_step {T : Type} (e : connectorE T) (s : Service) : Service * T :=
  match e in connectorE T return Service * T with
  | Send client command => answer command (receive client command s)
  | SetTimeout ms =>
      ({| submissions := submissions s; executions := executions s;
          pages := pages s; received := received s;
          elapsed := elapsed s + ms; console := console s |}, tt)
  | ConsoleError label error =>
      ({| submissions := submissions s; executions := executions s;
          pages := pages s; received := received s; elapsed := elapsed s;
          console := (console s ++ [(label, error)])%list |}, tt)
  end.

Definition stub : connectorE ~> Monads.stateT Service (itree void1) :=
  fun _ e s => Ret (stub_step e s).

(** Running an asynchronous function against the scripted service. *)
Definition run_stub {R : Type} (t : itree connectorE R) (s : Service)
  : itree void1 (Service * R) :=
  interp_state stub t s.

(** The output of a status check that reports [state]. *)
Definition execution_in (state : string) : GetQueryExecutionOutput :=
  {| QueryExecution := {| Status := {| State := state |} |} |}.

(** The states on which the poller goes on polling: every state but the
    three it names. *)
Definition pending (state : string) : bool :=
  negb (String.eqb state "SUCCEEDED"
        || String.eqb state "FAILED" || String.eqb state "CANCELLED").

(** ** A query that never ends

    A service whose every status check reports RUNNING; its state is the
    time waited. *)

Definition stuck_answer {R : Type} (command : Command R) : JsError + R :=
  match command in Command R return JsError + R with
  | StartQueryExecutionCommand _ => inl script_exhausted
  | GetQueryExecutionCommand _ => inr (execution_in "RUNNING")
  | GetQueryResultsCommand _ _ => inl script_exhausted
  end.

Definition stuck_step {T : Type} (e : connectorE T) (clock : Z) : Z * T :=
  match e in connectorE T return Z * T with
  | Send client command => (clock, stuck_answer command)
  | SetTimeout ms => (clock + ms, tt)
  | ConsoleError _ _ => (clock, tt)
  end.

Definition stuck : connectorE ~> Monads.stateT Z (itree void1) :=
  fun _ e clock => Ret (stuck_step e clock).

(** ** Vocabulary of the properties *)

(** The service after a status check that took the next scripted answer. *)
Definition polled (client : AthenaClient) (id : string)
    (rest : list (JsError + GetQueryExecutionOutput)) (s : Service) : Service :=
  {| submissions := submissions s; executions := rest; pages := pages s;
     received := (received s ++ [(client, Request_GetQueryExecution id)])%list;
     elapsed := elapsed s; console := console s |}.

Definition waited (ms : Z) (s : Service) : Service :=
  {| submissions := submissions s; executions := executions s;
     pages := pages s; received := received s;
     elapsed := elapsed s + ms; console := console s |}.

(** The service after [n] status checks, each followed by a wait, and one
    more check that ended the polling. *)
Definition after_polling (client : AthenaClient) (id : string) (n : nat)
    (rest : list (JsError + GetQueryExecutionOutput)) (s : Service) : Service :=
  {| submissions := submissions s; executions := rest; pages := pages s;
     received :=
       (received s
        ++ replicate (S n) (client, Request_GetQueryExecution id))%list;
     elapsed := elapsed s + 5000 * Z.of_nat n; console := console s |}.

(** Equality of mapped types is decidable. *)
#[global] Instance EvidenceType_eq_dec : EqDecision EvidenceType.
Proof. solve_decision. Defined.

(** Storing the cells of a row under the names of the columns at the same
    positions, from the first position on. *)
Definition assign_all (pairs : list (ColumnInfo_t * Datum))
    (mappedRow : RowObject) : RowObject :=
  fold_left
    (fun mappedRow pair =>
       set_property mappedRow (Name (fst pair)) (value_of_Datum (snd pair)))
    pairs mappedRow.

Definition type_error_Name : JsError :=
  TypeError "Cannot read properties of undefined (reading 'Name')".

Definition is_date (column : ColumnType) : bool :=
  String.eqb (EvidenceType_value (evidenceType column)) "date".

(** Some column of mapped type DATE carries the name [key]. *)
Definition date_named (columnTypes : list ColumnType) (key : string) : bool :=
  existsb (fun column => String.eqb (name column) key && is_date column)
    columnTypes.

(** A name under which the date loop has nothing left to change in a row:
    an own property that holds a date, or [__proto__] without an own
    property when the prototype of the row is a date. *)
Definition settled (row : RowObject) (key : string) : Prop :=
  (exists t, row !! key = Some (JsDate t))
  \/ (key = "__proto__" /\ row !! key = None
      /\ exists t, prototype row = Date_object t).

(** The time value of [new Date(p)] for a prototype [p] of a row object. *)
Definition prototype_time (p : Prototype) : TimeValue :=
  match p with
  | Date_object t => t
  | Object_prototype => Date_parse "[object Object]"
  end.

(** The token the next request of the loop carries. *)
Definition next_param (st : PageLoop) : option string :=
  if truthy (nextToken st) then nextToken st else params_NextToken st.

Definition results_request (client : AthenaClient) (id : string)
    (token : option string) : AthenaClient * Request :=
  (client, Request_GetQueryResults id token).

(** The service after the paginator fetched the pages [more] and one last
    page, starting with a request that carried [token]. *)
Definition after_paging (client : AthenaClient) (id : string)
    (token : option string) (more : list GetQueryResultsOutput)
    (rest : list (JsError + GetQueryResultsOutput)) (s : Service) : Service :=
  {| submissions := submissions s; executions := executions s; pages := rest;
     received :=
       (received s
        ++ List.map (results_request client id)
             (token :: List.map NextToken more))%list;
     elapsed := elapsed s; console := console s |}.

Definition page_rows (page : GetQueryResultsOutput) : list Row :=
  Rows (ResultSet page).

Definition page_metadata (page : GetQueryResultsOutput) : ResultSetMetadata_t :=
  ResultSetMetadata (ResultSet page).

(** Storing the cells of a row under the names of the entries of
    [columnTypes] at the same positions. *)
Definition assign_by_position (columnTypes : list ColumnType)
    (data : list Datum) : RowObject :=
  fold_left
    (fun mappedRow pair =>
       set_property mappedRow (name (fst pair)) (value_of_Datum (snd pair)))
    (zip columnTypes data) empty_object.

(** The service after it took the submission of a query. *)
Definition submitted (client : AthenaClient) (params : StartQueryExecutionInput)
    (rest : list (JsError + StartQueryExecutionOutput)) (s : Service) : Service :=
  {| submissions := rest; executions := executions s; pages := pages s;
     received :=
       (received s ++ [(client, Request_StartQueryExecution params)])%list;
     elapsed := elapsed s; console := console s |}.

(** The service after [console.error('Error executing query:', error)]. *)
Definition logged (error : JsError) (s : Service) : Service :=
  {| submissions := submissions s; executions := executions s;
     pages := pages s; received := received s; elapsed := elapsed s;
     console := (console s ++ [("Error executing query:", error)])%list |}.

(** How the poller ends on one answer of the service that is not a status
    it goes on polling on. *)
Definition poll_outcome (id : string)
    (answer : JsError + GetQueryExecutionOutput) : JsError + unit :=
  match answer with
  | inl e => inl e
  | inr result =>
      if String.eqb (State (Status (QueryExecution result))) "SUCCEEDED"
      then inr tt
      else inl (Error_ ("Query execution failed or was cancelled: " ++ id))
  end.

(** What the poller does with the answers a scripted service has for it:
    the number of waits, the answers left, and how it ends. *)
Fixpoint poll_script (id : string)
    (script : list (JsError + GetQueryExecutionOutput))
  : nat * list (JsError + GetQueryExecutionOutput) * (JsError + unit) :=
  match script with
  | [] => (0%nat, [], inl script_exhausted)
  | inr result :: rest =>
      if pending (State (Status (QueryExecution result))) then
        let '(k, rest', outcome) := poll_script id rest in
        (S k, rest', outcome)
      else (0%nat, rest, poll_outcome id (inr result))
  | inl e :: rest => (0%nat, rest, inl e)
  end.

(** The service after the paginator sent requests carrying [tokens]. *)
Definition after_requests (client : AthenaClient) (id : string)
    (tokens : list (option string))
    (rest : list (JsError + GetQueryResultsOutput)) (s : Service) : Service :=
  {| submissions := submissions s; executions := executions s; pages := rest;
     received :=
       (received s ++ List.map (results_request client id) tokens)%list;
     elapsed := elapsed s; console := console s |}.

(** What the paginator does with the pages a scripted service has for it,
    from the loop state [st] on: the tokens of the requests it sends, the
    pages left, and how it ends. *)
Fixpoint page_script (script : list (JsError + GetQueryResultsOutput))
    (st : PageLoop)
  : list (option string) * list (JsError + GetQueryResultsOutput)
    * (JsError + QueryResults) :=
  match script with
  | [] => ([next_param st], [], inl script_exhausted)
  | inl e :: rest => ([next_param st], rest, inl e)
  | inr response :: rest =>
      let metadata :=
        Some (default (page_metadata response) (resultSetMetadata st)) in
      let all := (allRows st ++ page_rows response)%list in
      if truthy (NextToken response) then
        let '(tokens, rest', outcome) :=
          page_script rest
            {| params_NextToken := next_param st;
               allRows := all;
               nextToken := NextToken response;
               resultSetMetadata := metadata |} in
        (next_param st :: tokens, rest', outcome)
      else
        ([next_param st], rest,
         inr {| qr_rows := all; qr_resultSetMetadata := metadata |})
  end.

(** The loop state [getQueryResults] starts from. *)
Definition first_page_state : PageLoop :=
  {| params_NextToken := None;
     allRows := [];
     nextToken := None;
     resultSetMetadata := None |}.

(** The run of the [try] block against a scripted service, whatever the
    service has scripted: the state it leaves the service in and its
    result, computed stage by stage. *)
Definition runner_try_script (client : AthenaClient)
    (options : ConnectorOptions) (queryText : string) (s : Service)
  : Service * (JsError + MappedOutput) :=
  let '(answer, rest) := next_answer (submissions s) in
  let s1 := submitted client (runner_params options queryText) rest s in
  match answer with
  | inl e => (s1, inl e)
  | inr response =>
      let id := QueryExecutionId response in
      let '(k, rest_e, polled) := poll_script id (executions s) in
      let s2 := after_polling client id k rest_e s1 in
      match polled with
      | inl e => (s2, inl e)
      | inr _ =>
          let '(tokens, rest_p, paged) :=
            page_script (pages s) first_page_state in
          let s3 := after_requests client id tokens rest_p s2 in
          match paged with
          | inl e => (s3, inl e)
          | inr queryResults =>
              (s3, match mapQueryResults queryResults with
                   | inl e => inl e
                   | inr output => inr (reifyDates output)
                   end)
          end
      end
  end.

(** * Properties *)

Example Date_parse_example : Date_parse "2024-01-15" = TimeMs 1705276800000.
Proof. reflexivity. Qed.

Example UTCDate_example : UTCDate 1705276800000 = (2024, 1, 15).
Proof. reflexivity. Qed.

(** ** Runs against the scripted service *)

Lemma run_stub_trigger {T : Type} (e : connectorE T) (s : Service) :
  run_stub (ITree.trigger e) s ≈ Ret (stub_step e s).
Proof.
  unfold run_stub. rewrite interp_state_trigger. cbn. reflexivity.
Qed.

Lemma run_stub_bind {A B : Type} (t : itree connectorE A)
    (k : A -> itree connectorE B) (s : Service) :
  run_stub (ITree.bind t k) s
  ≈ ITree.bind (run_stub t s) (fun sa => run_stub (k (snd sa)) (fst sa)).
Proof.
  unfold run_stub. rewrite interp_state_bind. reflexivity.
Qed.

Lemma run_stub_ret {A : Type} (a : A) (s : Service) :
  run_stub (Ret a) s ≈ Ret (s, a).
Proof.
  unfold run_stub. rewrite interp_state_ret. reflexivity.
Qed.

Lemma run_stub_tau {A : Type} (t : itree connectorE A) (s : Service) :
  run_stub (Tau t) s ≈ run_stub t s.
Proof.
  unfold run_stub. rewrite interp_state_tau, tau_eutt. reflexivity.
Qed.

(** Peel one event off a run against the scripted service. *)
Ltac run_event :=
  rewrite ?bind_bind; rewrite run_stub_bind, run_stub_trigger, bind_ret_l; cbn.

(** ** The type mapper *)

(** The [switch] of the type mapper is a lookup in the table, with [STRING]
    for a tag the table does not list. *)
Lemma mapAthenaTypeToEvidenceType_lookup (column : ColumnInfo_t) :
  evidenceType (mapAthenaTypeToEvidenceType column)
  = match find (fun entry => String.eqb (Type_ column) (fst entry))
            mapping_table with
    | Some entry => snd entry
    | None => STRING
    end.
Proof.
  unfold mapAthenaTypeToEvidenceType, mapping_table, case_of. cbn.
  repeat (destruct (String.eqb (Type_ column) _); cbn; try reflexivity).
Qed.

(** C1. For every column, [mapAthenaTypeToEvidenceType] returns the column's
    name and PRECISE fidelity; the type is the one the mapping table lists
    for the column's native type tag (boolean to BOOLEAN; tinyint, smallint,
    int, integer, bigint, double, float, real to NUMBER; date, timestamp to
    DATE; string, char, varchar, array, map, struct, decimal, binary to
    STRING), and STRING for every tag the table does not list. *)
Theorem mapAthenaTypeToEvidenceType_total (column : ColumnInfo_t) :
  name (mapAthenaTypeToEvidenceType column) = Name column
  /\ typeFidelity (mapAthenaTypeToEvidenceType column) = PRECISE
  /\ (forall type : EvidenceType,
        (Type_ column, type) ∈ mapping_table ->
        evidenceType (mapAthenaTypeToEvidenceType column) = type)
  /\ (Type_ column ∉ List.map fst mapping_table ->
      evidenceType (mapAthenaTypeToEvidenceType column) = STRING).
Proof.
  split; [reflexivity |]. split; [reflexivity |].
  rewrite mapAthenaTypeToEvidenceType_lookup. split.
  - intros type Hin. unfold mapping_table in *.
    repeat (apply elem_of_cons in Hin as [Heq | Hin];
            [inversion Heq as [[Htag Htype]]; rewrite Htag; reflexivity |]).
    by apply elem_of_nil in Hin.
  - intros Hnot. unfold mapping_table in *. cbn in *.
    repeat match goal with
           | |- context [String.eqb (Type_ column) ?label] =>
               destruct (String.eqb_spec (Type_ column) label) as [Heq | _];
               [exfalso; apply Hnot; rewrite Heq; set_solver | cbn]
           end.
    reflexivity.
Qed.

(** A timestamp column maps to DATE, a column of an unlisted type to STRING. *)
Lemma mapAthenaTypeToEvidenceType_total_witness :
  evidenceType
    (mapAthenaTypeToEvidenceType {| Name := "created"; Type_ := "timestamp" |})
  = DATE
  /\ evidenceType
       (mapAthenaTypeToEvidenceType {| Name := "doc"; Type_ := "json" |})
     = STRING.
Proof.
  split.
  - apply (mapAthenaTypeToEvidenceType_total
             {| Name := "created"; Type_ := "timestamp" |}).
    apply (bool_decide_unpack _). vm_compute. exact I.
  - apply (mapAthenaTypeToEvidenceType_total
             {| Name := "doc"; Type_ := "json" |}).
    apply (bool_decide_unpack _). vm_compute. exact I.
Defined.

(** ** Row objects *)

Lemma value_of_Datum_not_date (d : Datum) (t : TimeValue) :
  value_of_Datum d <> JsDate t.
Proof.
  unfold value_of_Datum. by destruct (VarCharValue d).
Qed.

Lemma lookup_RowObject (row : RowObject) (key : string) :
  row !! key = properties row !! key.
Proof. reflexivity. Qed.

(** An assignment changes no property of another name. *)
Lemma set_property_lookup_ne (row : RowObject) (n key : string) (v : JsValue) :
  n <> key -> set_property row n v !! key = row !! key.
Proof.
  intros Hne. unfold set_property. rewrite !lookup_RowObject.
  destruct (properties row !! n) eqn:Hn; cbn.
  - by rewrite lookup_insert_ne.
  - destruct (String.eqb n "__proto__").
    + by destruct v.
    + cbn. by rewrite lookup_insert_ne.
Qed.

(** Under a name other than [__proto__], an assignment makes the value the
    own property of that name. *)
Lemma set_property_lookup_eq (row : RowObject) (n : string) (v : JsValue) :
  n <> "__proto__" -> set_property row n v !! n = Some v.
Proof.
  intros Hne. unfold set_property. rewrite !lookup_RowObject.
  destruct (properties row !! n) eqn:Hn; cbn.
  - by rewrite lookup_insert_eq.
  - destruct (String.eqb_spec n "__proto__") as [-> | _]; [done |].
    cbn. by rewrite lookup_insert_eq.
Qed.

(** An own property is updated, whatever its name. *)
Lemma set_property_lookup_own (row : RowObject) (n : string) (v : JsValue) :
  is_Some (row !! n) -> set_property row n v !! n = Some v.
Proof.
  intros [w Hw]. unfold set_property. rewrite lookup_RowObject in Hw.
  rewrite !lookup_RowObject, Hw. cbn. by rewrite lookup_insert_eq.
Qed.

(** An assignment to [__proto__] creates no own property. *)
Lemma set_property_lookup_proto (row : RowObject) (n : string) (v : JsValue) :
  row !! "__proto__" = None -> set_property row n v !! "__proto__" = None.
Proof.
  intros Hnone. destruct (String.eqb_spec n "__proto__") as [-> | Hne].
  - unfold set_property. rewrite lookup_RowObject in Hnone.
    rewrite Hnone. cbn. by destruct v.
  - by rewrite set_property_lookup_ne.
Qed.

(** Only the assignment of a [Date] to [__proto__] changes the prototype. *)
Lemma set_property_prototype (row : RowObject) (n : string) (v : JsValue) :
  (forall t, v <> JsDate t) -> prototype (set_property row n v) = prototype row.
Proof.
  intros Hv. unfold set_property.
  destruct (properties row !! n); [done |].
  destruct (String.eqb n "__proto__"); [| done].
  destruct v as [| s | t]; [done | done |]. by destruct (Hv t).
Qed.

Lemma set_property_prototype_ne (row : RowObject) (n : string) (v : JsValue) :
  n <> "__proto__" -> prototype (set_property row n v) = prototype row.
Proof.
  intros Hne. unfold set_property.
  destruct (properties row !! n); [done |].
  by destruct (String.eqb_spec n "__proto__").
Qed.

(** ** The result formatter *)

Lemma forEach_Data_fits columns data : forall index mappedRow,
  (index + length data <= length columns)%nat ->
  forEach_Data columns data index mappedRow
  = inr (assign_all (zip (drop index columns) data) mappedRow).
Proof.
  induction data as [| d data IH]; intros index mappedRow Hlen; cbn in *.
  - by rewrite zip_with_nil_r.
  - destruct (columns !! index) as [column |] eqn:Hcol.
    + rewrite IH by lia.
      rewrite (drop_S _ _ _ Hcol). reflexivity.
    + apply lookup_ge_None in Hcol. lia.
Qed.

Lemma forEach_Data_overflows columns data : forall index mappedRow,
  (index <= length columns)%nat ->
  (length columns < index + length data)%nat ->
  forEach_Data columns data index mappedRow = inl type_error_Name.
Proof.
  induction data as [| d data IH]; intros index mappedRow Hindex Hlen;
    cbn in *.
  - lia.
  - destruct (columns !! index) as [column |] eqn:Hcol; [| reflexivity].
    apply lookup_lt_Some in Hcol. apply IH; lia.
Qed.

Lemma mapRow_fits columns row :
  (length (Data row) <= length columns)%nat ->
  mapRow columns row
  = inr (assign_all (zip columns (Data row)) empty_object).
Proof.
  intros Hlen. unfold mapRow. by rewrite forEach_Data_fits.
Qed.

(** A column named [__proto__] before a column named [id]: the row object
    gets the property [id] only. *)
Example mapRow_proto_column :
  mapRow [{| Name := "__proto__"; Type_ := "varchar" |};
          {| Name := "id"; Type_ := "integer" |}]
    {| Data := [{| VarCharValue := Some "x" |};
                {| VarCharValue := Some "1" |}] |}
  = inr {| properties := {[ "id" := JsString "1" ]};
           prototype := Object_prototype |}.
Proof. reflexivity. Qed.

Lemma mapRow_overflows columns row :
  (length columns < length (Data row))%nat ->
  mapRow columns row = inl type_error_Name.
Proof.
  intros Hlen. unfold mapRow. rewrite forEach_Data_overflows; [done | lia | done].
Qed.

Lemma map_throwing_inr {A B : Type} (f : A -> JsError + B) (l : list A) ys :
  map_throwing f l = inr ys <-> Forall2 (fun x y => f x = inr y) l ys.
Proof.
  revert ys. induction l as [| x l IH]; intros ys; cbn.
  - split.
    + intros [= <-]. constructor.
    + intros H. by inversion H.
  - destruct (f x) as [e | y] eqn:Hfx.
    + split; [discriminate |]. intros H. inversion H; congruence.
    + destruct (map_throwing f l) as [e | ys'] eqn:Hrest.
      * split; [discriminate |]. intros H. inversion H as [| ? ? ? ? _ Hl]; subst.
        apply IH in Hl. discriminate.
      * split.
        -- intros [= <-]. constructor; [done |]. by apply IH.
        -- intros H. inversion H as [| ? y' ? ys'' Hy Hl]; subst.
           apply IH in Hl. congruence.
Qed.

Lemma map_throwing_all {A B : Type} (f : A -> JsError + B) (l : list A) :
  Forall (fun x => exists y, f x = inr y) l ->
  exists ys, map_throwing f l = inr ys.
Proof.
  induction 1 as [| x l [y Hy] _ [ys Hys]]; cbn.
  - by eexists.
  - rewrite Hy, Hys. by eexists.
Qed.

Lemma map_throwing_inl {A B : Type} (f : A -> JsError + B) (l : list A) e :
  Forall (fun x => f x = inl e \/ exists y, f x = inr y) l ->
  Exists (fun x => f x = inl e) l ->
  map_throwing f l = inl e.
Proof.
  induction 1 as [| x l Hx Hl IH]; intros Hex; cbn.
  - inversion Hex.
  - destruct Hx as [Hx | [y Hx]]; rewrite Hx; [reflexivity |].
    inversion Hex as [? ? Habs | ? ? Hex']; subst; [congruence |].
    by rewrite IH.
Qed.

(** A column name no later pair assigns keeps the value it has. *)
Lemma assign_all_lookup_other pairs : forall mappedRow key,
  Forall (fun pair => Name (fst pair) <> key) pairs ->
  assign_all pairs mappedRow !! key = mappedRow !! key.
Proof.
  induction pairs as [| pair pairs IH]; intros mappedRow key Hall; cbn.
  - reflexivity.
  - inversion Hall as [| ? ? Hne Hall']; subst.
    unfold assign_all in IH. rewrite IH by done.
    by rewrite set_property_lookup_ne.
Qed.

(** The last pair that assigns a name other than [__proto__] decides the
    value stored under it. *)
Lemma assign_all_lookup_last pairs : forall mappedRow j column d,
  pairs !! j = Some (column, d) ->
  Name column <> "__proto__" ->
  (forall k pair, (j < k)%nat -> pairs !! k = Some pair ->
                  Name (fst pair) <> Name column) ->
  assign_all pairs mappedRow !! Name column = Some (value_of_Datum d).
Proof.
  induction pairs as [| pair pairs IH];
    intros mappedRow j column d Hj Hproto Hlast.
  - done.
  - destruct j as [| j]; cbn in *.
    + injection Hj as ->. fold (assign_all pairs).
      rewrite assign_all_lookup_other.
      * cbn. by rewrite set_property_lookup_eq.
      * apply Forall_lookup_2. intros k pair' Hk.
        apply (Hlast (S k)); [lia | done].
    + fold (assign_all pairs). apply (IH _ j); [done | done |].
      intros k pair' Hlt Hk. apply (Hlast (S k)); [lia | done].
Qed.

(** The cells of a row never become an own property [__proto__], and leave
    the prototype of the row object as it is. *)
Lemma assign_all_lookup_proto pairs : forall mappedRow,
  mappedRow !! "__proto__" = None ->
  assign_all pairs mappedRow !! "__proto__" = None.
Proof.
  induction pairs as [| pair pairs IH]; intros mappedRow Hnone; cbn.
  - done.
  - fold (assign_all pairs). apply IH. by apply set_property_lookup_proto.
Qed.

Lemma assign_all_prototype pairs : forall mappedRow,
  prototype (assign_all pairs mappedRow) = prototype mappedRow.
Proof.
  induction pairs as [| pair pairs IH]; intros mappedRow; cbn.
  - done.
  - fold (assign_all pairs). rewrite IH.
    apply set_property_prototype. intros t.
    apply value_of_Datum_not_date.
Qed.

Lemma mapRow_cases columns row :
  ((length (Data row) <= length columns)%nat
   /\ mapRow columns row
      = inr (assign_all (zip columns (Data row)) empty_object))
  \/ ((length columns < length (Data row))%nat
      /\ mapRow columns row = inl type_error_Name).
Proof.
  destruct (le_lt_dec (length (Data row)) (length columns)) as [Hle | Hlt].
  - left. split; [done |]. by apply mapRow_fits.
  - right. split; [done |]. by apply mapRow_overflows.
Qed.

Lemma mapRow_inr columns row mappedRow :
  mapRow columns row = inr mappedRow ->
  (length (Data row) <= length columns)%nat
  /\ mappedRow = assign_all (zip columns (Data row)) empty_object.
Proof.
  intros Hrow. destruct (mapRow_cases columns row) as [[Hle Heq] | [_ Heq]];
    rewrite Heq in Hrow; [| discriminate].
  injection Hrow as <-. done.
Qed.

(** The formatter's output, when it has one: the rows are the images of the
    raw rows after the first, the column types those of the columns. *)
Lemma mapQueryResults_inr all_rows metadata output :
  mapQueryResults
    {| qr_rows := all_rows; qr_resultSetMetadata := Some metadata |}
  = inr output ->
  Forall2 (fun row mappedRow => mapRow (ColumnInfo metadata) row = inr mappedRow)
    (drop 1 all_rows) (rows output)
  /\ columnTypes output
     = List.map mapAthenaTypeToEvidenceType (ColumnInfo metadata)
  /\ expectedRowCount output = length (rows output).
Proof.
  unfold mapQueryResults. cbn [qr_rows qr_resultSetMetadata].
  destruct (map_throwing _ _) as [e | mappedRows] eqn:Hmap; [discriminate |].
  intros [= <-]. cbn [rows columnTypes expectedRowCount].
  apply map_throwing_inr in Hmap. done.
Qed.

(** C2, as stated, fails: one header row and one data row, the data row
    with two cells for a single column. The formatter throws and has no
    output. *)
Lemma mapQueryResults_row_count_counterexample :
  let header := {| Data := [{| VarCharValue := Some "id" |}] |} in
  let row :=
    {| Data := [{| VarCharValue := Some "1" |};
                {| VarCharValue := Some "2" |}] |} in
  let metadata := {| ColumnInfo := [{| Name := "id"; Type_ := "integer" |}] |} in
  let queryResults :=
    {| qr_rows := [header; row]; qr_resultSetMetadata := Some metadata |} in
  mapQueryResults queryResults
  = inl (TypeError "Cannot read properties of undefined (reading 'Name')")
  /\ ~ (exists output,
          mapQueryResults queryResults = inr output
          /\ length (rows output) = 1%nat
          /\ expectedRowCount output = 1%nat).
Proof.
  cbn. split; [reflexivity |]. intros (output & Hout & _). discriminate.
Qed.

(** C2 (amended). For every raw result set of one header row followed by N
    data rows, none of which has more cells than the metadata has columns,
    the formatter has an output; the output rows are the images of the N
    data rows, in order (the first row is dropped), so there are exactly N
    of them, and [expectedRowCount] is N. *)
Theorem mapQueryResults_row_count (header : Row) (data_rows : list Row)
    (metadata : ResultSetMetadata_t) :
  Forall (fun row => (length (Data row) <= length (ColumnInfo metadata))%nat)
    data_rows ->
  exists output,
    mapQueryResults
      {| qr_rows := header :: data_rows;
         qr_resultSetMetadata := Some metadata |}
    = inr output
    /\ Forall2
         (fun row mappedRow => mapRow (ColumnInfo metadata) row = inr mappedRow)
         data_rows (rows output)
    /\ length (rows output) = length data_rows
    /\ expectedRowCount output = length data_rows.
Proof.
  intros Hfit.
  destruct (map_throwing_all (mapRow (ColumnInfo metadata)) data_rows)
    as [mappedRows Hmap].
  { eapply Forall_impl; [exact Hfit |]. intros row Hle. cbn in Hle.
    eexists. by apply mapRow_fits. }
  exists {| rows := mappedRows;
            columnTypes :=
              List.map mapAthenaTypeToEvidenceType (ColumnInfo metadata);
            expectedRowCount := length mappedRows |}.
  unfold mapQueryResults. cbn [qr_rows qr_resultSetMetadata].
  change (drop 1 (header :: data_rows)) with data_rows. rewrite Hmap.
  apply map_throwing_inr in Hmap. cbn [rows expectedRowCount].
  pose proof (Forall2_length _ _ _ Hmap) as Hlen.
  repeat split; [done | by rewrite Hlen | by rewrite Hlen].
Qed.

(** A header and two data rows of one cell each, for one column. *)
Lemma mapQueryResults_row_count_witness :
  let header := {| Data := [{| VarCharValue := Some "id" |}] |} in
  let row1 := {| Data := [{| VarCharValue := Some "1" |}] |} in
  let row2 := {| Data := [{| VarCharValue := None |}] |} in
  let metadata := {| ColumnInfo := [{| Name := "id"; Type_ := "integer" |}] |} in
  exists output,
    mapQueryResults
      {| qr_rows := [header; row1; row2];
         qr_resultSetMetadata := Some metadata |}
    = inr output
    /\ Forall2
         (fun row mappedRow => mapRow (ColumnInfo metadata) row = inr mappedRow)
         [row1; row2] (rows output)
    /\ length (rows output) = 2%nat
    /\ expectedRowCount output = 2%nat.
Proof.
  intros header row1 row2 metadata.
  apply (mapQueryResults_row_count header [row1; row2] metadata).
  repeat constructor.
Defined.

(** C10, as stated, fails in its last part: with two columns that share the
    name [__proto__], the later cell does not overwrite the earlier one,
    because neither is stored. The assignment [mappedRow["__proto__"] = ...]
    of a string reaches the accessor of [Object.prototype], which ignores
    it: the output row is the empty object, and reading
    [mappedRow["__proto__"]] gives its prototype, not the later cell. *)
Lemma mapQueryResults_total_iff_counterexample :
  let header := {| Data := [] |} in
  let row :=
    {| Data := [{| VarCharValue := Some "early" |};
                {| VarCharValue := Some "late" |}] |} in
  let metadata :=
    {| ColumnInfo := [{| Name := "__proto__"; Type_ := "varchar" |};
                      {| Name := "__proto__"; Type_ := "varchar" |}] |} in
  exists output,
    mapQueryResults
      {| qr_rows := [header; row]; qr_resultSetMetadata := Some metadata |}
    = inr output
    /\ rows output = [empty_object]
    /\ (forall mappedRow, rows output !! 0%nat = Some mappedRow ->
         mappedRow !! "__proto__" <> Some (JsString "late")
         /\ get_property mappedRow "__proto__"
            = Inherited Object_prototype "__proto__").
Proof.
  cbn. eexists. split; [reflexivity |]. split; [reflexivity |].
  intros mappedRow [= <-]. split; [discriminate | reflexivity].
Qed.

(** C10 (amended). The formatter has an output exactly when no data row (a
    row after the first) has more cells than the metadata has columns; with
    a data row that has more, reading [columns[index].Name] past the last
    column throws the [TypeError] of a property access on [undefined], and
    the formatter has no output. In an output row, the value under a column
    name other than [__proto__] is the cell at the last position of the row
    whose column has that name: with two columns of one such name, the
    later cell overwrites the earlier. Under the name [__proto__] an output
    row has no property of its own, and its prototype is that of every
    object literal. *)
Theorem mapQueryResults_total_iff (all_rows : list Row)
    (metadata : ResultSetMetadata_t) :
  let columns := ColumnInfo metadata in
  let queryResults :=
    {| qr_rows := all_rows; qr_resultSetMetadata := Some metadata |} in
  ((exists output, mapQueryResults queryResults = inr output)
   <-> Forall (fun row => (length (Data row) <= length columns)%nat)
         (drop 1 all_rows))
  /\ (Exists (fun row => (length columns < length (Data row))%nat)
        (drop 1 all_rows) ->
      mapQueryResults queryResults
      = inl (TypeError "Cannot read properties of undefined (reading 'Name')"))
  /\ (forall output k row mappedRow j column d,
        mapQueryResults queryResults = inr output ->
        all_rows !! S k = Some row ->
        rows output !! k = Some mappedRow ->
        columns !! j = Some column ->
        Data row !! j = Some d ->
        Name column <> "__proto__" ->
        (forall j' column',
           (j < j' < length (Data row))%nat ->
           columns !! j' = Some column' ->
           Name column' <> Name column) ->
        mappedRow !! Name column = Some (value_of_Datum d))
  /\ (forall output mappedRow,
        mapQueryResults queryResults = inr output ->
        mappedRow ∈ rows output ->
        mappedRow !! "__proto__" = None
        /\ prototype mappedRow = Object_prototype).
Proof.
  intros columns queryResults. split; [split | split; [| split]].
  - intros [output Hout]. apply mapQueryResults_inr in Hout as (Hrows & _).
    apply Forall_lookup_2. intros k row Hk.
    destruct (Forall2_lookup_l _ _ _ _ _ Hrows Hk) as (mappedRow & _ & Hrow).
    by apply mapRow_inr in Hrow as [Hle _].
  - intros Hfit.
    destruct (map_throwing_all (mapRow columns) (drop 1 all_rows))
      as [mappedRows Hmap].
    { eapply Forall_impl; [exact Hfit |]. intros row Hle. cbn in Hle.
      eexists. by apply mapRow_fits. }
    eexists. unfold queryResults, mapQueryResults.
    cbn [qr_rows qr_resultSetMetadata]. fold columns. by rewrite Hmap.
  - intros Hex. unfold queryResults, mapQueryResults.
    cbn [qr_rows qr_resultSetMetadata]. fold columns.
    rewrite (map_throwing_inl _ _ type_error_Name); [done | | ].
    + apply Forall_lookup_2. intros k row _.
      destruct (mapRow_cases columns row) as [[_ Heq] | [_ Heq]]; eauto.
    + eapply Exists_impl; [exact Hex |]. intros row Hlt. cbn in Hlt.
      by apply mapRow_overflows.
  - intros output k row mappedRow j column d Hout Hrow Hmapped Hcol Hd
      Hproto Hlast.
    apply mapQueryResults_inr in Hout as (Hrows & _).
    assert (drop 1 all_rows !! k = Some row) as Hk by by rewrite lookup_drop.
    pose proof (Forall2_lookup_lr _ _ _ _ _ _ Hrows Hk Hmapped) as Hmap.
    apply mapRow_inr in Hmap as [Hle ->].
    apply (assign_all_lookup_last _ _ j).
    + apply lookup_zip_with_Some. eauto.
    + done.
    + intros j' [column' d'] Hlt Hj'.
      apply lookup_zip_with_Some in Hj' as (? & ? & [= <- <-] & Hc' & Hd').
      cbn. apply (Hlast j'); [| done].
      apply lookup_lt_Some in Hd'. lia.
  - intros output mappedRow Hout Hin.
    apply mapQueryResults_inr in Hout as (Hrows & _).
    apply list_elem_of_lookup in Hin as [k Hk].
    destruct (Forall2_lookup_r _ _ _ _ _ Hrows Hk) as (row & _ & Hmap).
    apply mapRow_inr in Hmap as [_ ->]. split.
    + by apply assign_all_lookup_proto.
    + by rewrite assign_all_prototype.
Qed.

(** A row of two cells: with one column the formatter throws; with two
    columns of the same name [a] the row keeps the later cell. *)
Lemma mapQueryResults_total_iff_witness :
  let header := {| Data := [] |} in
  let row :=
    {| Data := [{| VarCharValue := Some "early" |};
                {| VarCharValue := Some "late" |}] |} in
  let one := {| ColumnInfo := [{| Name := "a"; Type_ := "varchar" |}] |} in
  let two :=
    {| ColumnInfo := [{| Name := "a"; Type_ := "varchar" |};
                      {| Name := "a"; Type_ := "varchar" |}] |} in
  mapQueryResults
    {| qr_rows := [header; row]; qr_resultSetMetadata := Some one |}
  = inl (TypeError "Cannot read properties of undefined (reading 'Name')")
  /\ exists output mappedRow,
       mapQueryResults
         {| qr_rows := [header; row]; qr_resultSetMetadata := Some two |}
       = inr output
       /\ rows output !! 0%nat = Some mappedRow
       /\ mappedRow !! "a" = Some (JsString "late").
Proof.
  intros header row one two. split.
  - apply (mapQueryResults_total_iff [header; row] one).
    apply Exists_cons_hd. cbn. lia.
  - eexists _, _. split; [reflexivity |]. split; [reflexivity |].
    eapply (proj1 (proj2 (proj2 (mapQueryResults_total_iff [header; row] two)))
              _ 0%nat row _ 1%nat {| Name := "a"; Type_ := "varchar" |}
             {| VarCharValue := Some "late" |});
      try reflexivity.
    + discriminate.
    + cbn. intros j' column' Hj'. lia.
Defined.

(** ** The date loop of the runner *)

Lemma is_date_DATE (column : ColumnType) :
  is_date column = true <-> evidenceType column = DATE.
Proof.
  unfold is_date. by destruct (evidenceType column).
Qed.

Lemma new_Date_idempotent (v : JsValue) : new_Date (new_Date v) = new_Date v.
Proof. by destruct v. Qed.

Lemma new_Date_is_date (v : JsValue) : exists t, new_Date v = JsDate t.
Proof.
  destruct v; cbn; eauto.
Qed.

Lemma new_Date_of_is_date (read : PropertyRead) :
  exists t, new_Date_of read = JsDate t.
Proof.
  destruct read as [v | p key]; unfold new_Date_of.
  - apply new_Date_is_date.
  - destruct (String.eqb key "__proto__"), p;
      try destruct (existsb _ _); cbn; eauto.
Qed.

Lemma reifyDates_row_cons (column : ColumnType) (columnTypes : list ColumnType)
    (row : RowObject) :
  reifyDates_row (column :: columnTypes) row
  = reifyDates_row columnTypes
      (if is_date column
       then set_property row (name column)
              (new_Date_of (get_property row (name column)))
       else row).
Proof. reflexivity. Qed.

Lemma get_property_own (row : RowObject) (key : string) (v : JsValue) :
  row !! key = Some v -> get_property row key = Own v.
Proof.
  intros Hv. unfold get_property. rewrite lookup_RowObject in Hv.
  by rewrite Hv.
Qed.

Lemma get_property_inherited (row : RowObject) (key : string) :
  row !! key = None -> get_property row key = Inherited (prototype row) key.
Proof.
  intros Hv. unfold get_property. rewrite lookup_RowObject in Hv.
  by rewrite Hv.
Qed.

(** A date column named [__proto__], on the row of the example above: the
    loop leaves the properties of the row as they are and makes a date its
    prototype. *)
Example reifyDates_row_proto_column :
  reifyDates_row
    [{| name := "__proto__"; evidenceType := DATE; typeFidelity := PRECISE |};
     {| name := "id"; evidenceType := NUMBER; typeFidelity := PRECISE |}]
    {| properties := {[ "id" := JsString "1" ]};
       prototype := Object_prototype |}
  = {| properties := {[ "id" := JsString "1" ]};
       prototype := Date_object (Date_parse "[object Object]") |}.
Proof. reflexivity. Qed.

(** The date loop acts on a row by property name. An own property whose name
    some date column carries gets the date made from its value; under any
    other name it keeps its value. *)
Lemma reifyDates_row_lookup_own (columnTypes : list ColumnType) :
  forall (row : RowObject) (key : string) (v : JsValue),
    row !! key = Some v ->
    reifyDates_row columnTypes row !! key
    = Some (if date_named columnTypes key then new_Date v else v).
Proof.
  induction columnTypes as [| column columnTypes IH]; intros row key v Hv.
  - done.
  - rewrite reifyDates_row_cons. unfold date_named. cbn [existsb].
    fold (date_named columnTypes key).
    destruct (is_date column) eqn:Hdate.
    + destruct (String.eqb_spec (name column) key) as [-> | Hne]; cbn [andb orb].
      * rewrite (IH _ _ (new_Date v)).
        -- rewrite new_Date_idempotent. by destruct (date_named _ _).
        -- rewrite (get_property_own _ _ _ Hv). cbn [new_Date_of].
           apply set_property_lookup_own. by rewrite Hv.
      * apply IH. by rewrite set_property_lookup_ne.
    + rewrite andb_false_r. cbn [orb]. by apply IH.
Qed.

(** A name other than [__proto__] that the row does not have as an own
    property becomes one when a date column carries it: the date made from
    what the row inherits under that name from the prototype it has then,
    which is its first prototype unless a date column is named [__proto__].
    Otherwise the name stays absent. *)
Lemma reifyDates_row_lookup_inherited (columnTypes : list ColumnType) :
  forall (row : RowObject) (key : string),
    row !! key = None ->
    key <> "__proto__" ->
    if date_named columnTypes key
    then exists p,
           reifyDates_row columnTypes row !! key
           = Some (new_Date_of (Inherited p key))
           /\ (date_named columnTypes "__proto__" = false -> p = prototype row)
    else reifyDates_row columnTypes row !! key = None.
Proof.
  induction columnTypes as [| column columnTypes IH]; intros row key Hv Hproto.
  - done.
  - rewrite reifyDates_row_cons. unfold date_named. cbn [existsb].
    fold (date_named columnTypes key).
    fold (date_named columnTypes "__proto__").
    destruct (is_date column) eqn:Hdate.
    + destruct (String.eqb_spec (name column) key) as [Heq | Hne];
        cbn [andb orb].
      * exists (prototype row). split; [| done].
        rewrite Heq, (get_property_inherited _ _ Hv).
        rewrite (reifyDates_row_lookup_own _ _ _
                   (new_Date_of (Inherited (prototype row) key))).
        -- destruct (new_Date_of_is_date (Inherited (prototype row) key))
             as [t ->].
           destruct (date_named columnTypes key); reflexivity.
        -- by apply set_property_lookup_eq.
      * specialize (IH (set_property row (name column)
                          (new_Date_of (get_property row (name column)))) key).
        rewrite set_property_lookup_ne in IH by done.
        specialize (IH Hv Hproto).
        destruct (date_named columnTypes key); [| exact IH].
        destruct IH as (p & Hp & Hfirst). exists p. split; [exact Hp |].
        intros Hno. apply orb_false_iff in Hno as [Hc Hrest].
        rewrite andb_true_r in Hc. apply String.eqb_neq in Hc.
        rewrite (Hfirst Hrest). by apply set_property_prototype_ne.
    + rewrite !andb_false_r. cbn [orb]. by apply IH.
Qed.

(** The date loop gives no row an own property [__proto__]. *)
Lemma reifyDates_row_lookup_proto (columnTypes : list ColumnType) :
  forall row : RowObject,
    row !! "__proto__" = None ->
    reifyDates_row columnTypes row !! "__proto__" = None.
Proof.
  induction columnTypes as [| column columnTypes IH]; intros row Hnone.
  - done.
  - rewrite reifyDates_row_cons. apply IH.
    destruct (is_date column); [| done].
    by apply set_property_lookup_proto.
Qed.

(** With no own property [__proto__], a date column of that name makes the
    prototype of the row a [Date], copied from the prototype it had; without
    such a column the prototype stays. *)
Lemma reifyDates_row_prototype (columnTypes : list ColumnType) :
  forall row : RowObject,
    row !! "__proto__" = None ->
    prototype (reifyDates_row columnTypes row)
    = if date_named columnTypes "__proto__"
      then Date_object (prototype_time (prototype row))
      else prototype row.
Proof.
  induction columnTypes as [| column columnTypes IH]; intros row Hnone.
  - done.
  - rewrite reifyDates_row_cons. unfold date_named. cbn [existsb].
    fold (date_named columnTypes "__proto__").
    destruct (is_date column) eqn:Hdate.
    + destruct (String.eqb_spec (name column) "__proto__") as [Heq | Hne];
        cbn [andb orb].
      * rewrite Heq, (get_property_inherited _ _ Hnone). cbn [new_Date_of].
        change (String.eqb "__proto__" "__proto__") with true. cbn match.
        assert (set_property row "__proto__"
                  (JsDate (prototype_time (prototype row)))
                = {| properties := properties row;
                     prototype :=
                       Date_object (prototype_time (prototype row)) |})
          as Hset.
        { unfold set_property. rewrite lookup_RowObject in Hnone.
          by rewrite Hnone. }
        assert (match prototype row with
                | Object_prototype => JsDate (Date_parse "[object Object]")
                | Date_object t => JsDate t
                end = JsDate (prototype_time (prototype row))) as ->
          by by destruct (prototype row).
        rewrite Hset, IH by done. cbn [prototype prototype_time].
        by destruct (date_named _ _).
      * rewrite IH by by apply set_property_lookup_proto.
        by rewrite set_property_prototype_ne.
    + rewrite andb_false_r. cbn [orb]. by apply IH.
Qed.

Lemma existsb_only {A : Type} (P : A -> bool) (l : list A) i x :
  l !! i = Some x ->
  (forall j y, l !! j = Some y -> j <> i -> P y = false) ->
  existsb P l = P x.
Proof.
  intros Hi Hother. destruct (existsb P l) eqn:Hex.
  - apply existsb_exists in Hex as (y & Hin & Hy).
    apply list_elem_of_In, list_elem_of_lookup in Hin as [j Hj].
    destruct (decide (j = i)) as [-> | Hne]; [congruence |].
    rewrite (Hother j y Hj Hne) in Hy. discriminate.
  - destruct (P x) eqn:HPx; [| done].
    rewrite <- Hex. apply existsb_exists. exists x. split; [| done].
    apply list_elem_of_In, list_elem_of_lookup. eauto.
Qed.

Lemma lookup_List_map {A B : Type} (f : A -> B) (l : list A) (i : nat) :
  List.map f l !! i = f <$> l !! i.
Proof.
  revert i. induction l as [| x l IH]; intros [| i]; cbn; auto.
Qed.

(** C6, as stated, fails, on two inputs.

    Two columns named [day], the first a date and the second a varchar: the
    row object has one property [day], holding the second cell; the date loop
    turns it into a date. So the value of the date column is not the date
    parsed from its own cell, and the value of the varchar column is not left
    as the original string.

    One date column named [__proto__]: the formatter's assignment of the
    cell is ignored by the accessor of [Object.prototype], so the row is the
    empty object; the date loop reads the prototype of the row and assigns
    the date made from it, which makes that date the prototype of the row.
    The row has no property holding the date parsed from the cell. *)
Lemma reifyDates_column_value_counterexample :
  (let metadata :=
     {| ColumnInfo := [{| Name := "day"; Type_ := "date" |};
                       {| Name := "day"; Type_ := "varchar" |}] |} in
   let header :=
     {| Data := [{| VarCharValue := Some "day" |};
                 {| VarCharValue := Some "day" |}] |} in
   let row :=
     {| Data := [{| VarCharValue := Some "2024-01-15" |};
                 {| VarCharValue := Some "2024-02-01" |}] |} in
   exists output final,
     mapQueryResults
       {| qr_rows := [header; row]; qr_resultSetMetadata := Some metadata |}
     = inr output
     /\ rows (reifyDates output) !! 0%nat = Some final
     /\ final !! "day" = Some (JsDate (TimeMs 1706745600000))
     /\ final !! "day" <> Some (JsDate (Date_parse "2024-01-15"))
     /\ final !! "day" <> Some (JsString "2024-02-01"))
  /\ (let metadata :=
        {| ColumnInfo := [{| Name := "__proto__"; Type_ := "date" |}] |} in
      let header := {| Data := [{| VarCharValue := Some "__proto__" |}] |} in
      let row := {| Data := [{| VarCharValue := Some "2024-01-15" |}] |} in
      exists output final,
        mapQueryResults
          {| qr_rows := [header; row]; qr_resultSetMetadata := Some metadata |}
        = inr output
        /\ rows output = [empty_object]
        /\ rows (reifyDates output) !! 0%nat = Some final
        /\ final
           = {| properties := ∅;
                prototype := Date_object (Date_parse "[object Object]") |}
        /\ final !! "__proto__" <> Some (JsDate (Date_parse "2024-01-15"))).
Proof.
  split.
  - cbn zeta. eexists _, _. split; [reflexivity |]. split; [reflexivity |].
    split; [reflexivity |]. split; vm_compute; discriminate.
  - cbn zeta. eexists _, _. split; [reflexivity |]. split; [reflexivity |].
    split; [reflexivity |]. split; [reflexivity |]. vm_compute. discriminate.
Qed.

(** C6 (amended). For every output row and every column whose name no other
    column shares and is not [__proto__], where the raw row has a string in
    the column's position: after the date loop of the runner, the row's
    value under the column's name is the date parsed from that string if the
    column's mapped type is DATE, and the original string otherwise. The
    string "2024-01-15" becomes the date whose time value is midnight UTC of
    January 15, 2024. *)
Theorem reifyDates_column_value :
  (forall (all_rows : list Row) (metadata : ResultSetMetadata_t)
          (output : MappedOutput) (k : nat) (row : Row) (i : nat)
          (column : ColumnInfo_t) (s : string),
      mapQueryResults
        {| qr_rows := all_rows; qr_resultSetMetadata := Some metadata |}
      = inr output ->
      all_rows !! S k = Some row ->
      ColumnInfo metadata !! i = Some column ->
      (forall j column',
         ColumnInfo metadata !! j = Some column' -> j <> i ->
         Name column' <> Name column) ->
      Name column <> "__proto__" ->
      Data row !! i = Some {| VarCharValue := Some s |} ->
      exists mappedRow final,
        rows output !! k = Some mappedRow
        /\ mappedRow !! Name column = Some (JsString s)
        /\ rows (reifyDates output) !! k = Some final
        /\ final !! Name column
           = Some (match evidenceType (mapAthenaTypeToEvidenceType column) with
                   | DATE => JsDate (Date_parse s)
                   | _ => JsString s
                   end))
  /\ new_Date (JsString "2024-01-15") = JsDate (TimeMs 1705276800000)
  /\ UTCDate 1705276800000 = (2024, 1, 15).
Proof.
  split; [| split; reflexivity].
  intros all_rows metadata output k row i column s Hout Hrow Hcol Honly
    Hproto Hs.
  apply mapQueryResults_inr in Hout as (Hrows & Htypes & _).
  assert (drop 1 all_rows !! k = Some row) as Hk by by rewrite lookup_drop.
  destruct (Forall2_lookup_l _ _ _ _ _ Hrows Hk) as (mappedRow & Hmapped & Hmap).
  apply mapRow_inr in Hmap as [Hle Hmap].
  assert (mappedRow !! Name column = Some (JsString s)) as Hvalue.
  { rewrite Hmap.
    rewrite (assign_all_lookup_last _ _ i column {| VarCharValue := Some s |}).
    - reflexivity.
    - apply lookup_zip_with_Some. eauto.
    - done.
    - intros j [column' d'] Hlt Hj.
      apply lookup_zip_with_Some in Hj as (? & ? & [= <- <-] & Hc' & Hd').
      cbn. apply (Honly j); [done | lia]. }
  exists mappedRow, (reifyDates_row (columnTypes output) mappedRow).
  split; [done |]. split; [done |]. split.
  - unfold reifyDates. cbn [rows]. by rewrite lookup_List_map, Hmapped.
  - rewrite (reifyDates_row_lookup_own _ _ _ _ Hvalue), Htypes.
    unfold date_named.
    rewrite (existsb_only _ _ i (mapAthenaTypeToEvidenceType column)).
    + rewrite String.eqb_refl. cbn [andb].
      destruct (is_date (mapAthenaTypeToEvidenceType column)) eqn:Hdate.
      * apply is_date_DATE in Hdate. by rewrite Hdate.
      * destruct (evidenceType (mapAthenaTypeToEvidenceType column)) eqn:Htype;
          try reflexivity.
        apply is_date_DATE in Htype. congruence.
    + by rewrite lookup_List_map, Hcol.
    + intros j y Hj Hne. rewrite lookup_List_map in Hj.
      destruct (ColumnInfo metadata !! j) as [column' |] eqn:Hcol';
        [| discriminate].
      injection Hj as <-. cbn [name mapAthenaTypeToEvidenceType].
      apply andb_false_iff. left. apply String.eqb_neq. eauto.
Qed.

(** A date column and an integer column with different names. *)
Lemma reifyDates_column_value_witness :
  let metadata :=
    {| ColumnInfo := [{| Name := "day"; Type_ := "date" |};
                      {| Name := "count"; Type_ := "integer" |}] |} in
  let header :=
    {| Data := [{| VarCharValue := Some "day" |};
                {| VarCharValue := Some "count" |}] |} in
  let row :=
    {| Data := [{| VarCharValue := Some "2024-01-15" |};
                {| VarCharValue := Some "7" |}] |} in
  exists output mappedRow final,
    mapQueryResults
      {| qr_rows := [header; row]; qr_resultSetMetadata := Some metadata |}
    = inr output
    /\ rows output !! 0%nat = Some mappedRow
    /\ mappedRow !! "day" = Some (JsString "2024-01-15")
    /\ rows (reifyDates output) !! 0%nat = Some final
    /\ final !! "day" = Some (JsDate (Date_parse "2024-01-15")).
Proof.
  intros metadata header row.
  eexists. 
  assert (mapQueryResults
            {| qr_rows := [header; row]; qr_resultSetMetadata := Some metadata |}
          = inr _) as Hout by reflexivity.
  destruct (proj1 reifyDates_column_value [header; row] metadata _ 0%nat row
              0%nat {| Name := "day"; Type_ := "date" |} "2024-01-15" Hout)
    as (mappedRow & final & H); try reflexivity.
  - intros [| [| j]] column' Hj Hne; cbn in Hj; try done.
    by injection Hj as <-.
  - discriminate.
  - exists mappedRow, final. split; [exact Hout | exact H].
Defined.

(** ** The completion poller *)

Lemma pending_true (state : string) :
  pending state = true <->
  state <> "SUCCEEDED" /\ state <> "FAILED" /\ state <> "CANCELLED".
Proof.
  unfold pending. rewrite negb_true_iff, !orb_false_iff.
  rewrite !String.eqb_neq. tauto.
Qed.

Lemma poll_pending (client : AthenaClient) (id : string) (s : Service) r rest :
  executions s = inr r :: rest ->
  pending (State (Status (QueryExecution r))) = true ->
  run_stub (waitForQueryCompletion client id) s
  ≈ run_stub (waitForQueryCompletion client id)
      (waited 5000 (polled client id rest s)).
Proof.
  intros Hs Hp. unfold waitForQueryCompletion at 1. rewrite unfold_iter.
  unfold waitForQueryCompletion_body at 1.
  run_event. rewrite Hs. cbn.
  apply pending_true in Hp as (H1 & H2 & H3).
  apply String.eqb_neq in H1, H2, H3. rewrite H1, H2, H3. cbn.
  run_event. rewrite bind_ret_l, run_stub_tau. reflexivity.
Qed.

Lemma poll_succeeded (client : AthenaClient) (id : string) (s : Service) r rest :
  executions s = inr r :: rest ->
  State (Status (QueryExecution r)) = "SUCCEEDED" ->
  run_stub (waitForQueryCompletion client id) s
  ≈ Ret (polled client id rest s, inr tt).
Proof.
  intros Hs Hp. unfold waitForQueryCompletion. rewrite unfold_iter.
  unfold waitForQueryCompletion_body at 1.
  run_event. rewrite Hs. cbn. rewrite Hp. cbn.
  rewrite bind_ret_l, run_stub_ret. reflexivity.
Qed.

Lemma poll_failed (client : AthenaClient) (id : string) (s : Service) r rest :
  executions s = inr r :: rest ->
  State (Status (QueryExecution r)) = "FAILED"
  \/ State (Status (QueryExecution r)) = "CANCELLED" ->
  run_stub (waitForQueryCompletion client id) s
  ≈ Ret (polled client id rest s,
         inl (Error_ ("Query execution failed or was cancelled: " ++ id))).
Proof.
  intros Hs Hp. unfold waitForQueryCompletion. rewrite unfold_iter.
  unfold waitForQueryCompletion_body at 1.
  run_event. rewrite Hs. cbn.
  destruct Hp as [Hp | Hp]; rewrite Hp; cbn;
    rewrite bind_ret_l, run_stub_ret; reflexivity.
Qed.

Lemma poll_rejected (client : AthenaClient) (id : string) (s : Service) e rest :
  executions s = inl e :: rest ->
  run_stub (waitForQueryCompletion client id) s
  ≈ Ret (polled client id rest s, inl e).
Proof.
  intros Hs. unfold waitForQueryCompletion. rewrite unfold_iter.
  unfold waitForQueryCompletion_body at 1.
  run_event. rewrite Hs. cbn.
  rewrite bind_ret_l, run_stub_ret. reflexivity.
Qed.

Lemma poll_all_pending (client : AthenaClient) (id : string)
    (states : list string) :
  forall (s : Service) tail,
    Forall (fun state => pending state = true) states ->
    executions s = (List.map (fun state => inr (execution_in state)) states
                    ++ tail)%list ->
    run_stub (waitForQueryCompletion client id) s
    ≈ run_stub (waitForQueryCompletion client id)
        {| submissions := submissions s; executions := tail; pages := pages s;
           received :=
             (received s
              ++ replicate (length states)
                   (client, Request_GetQueryExecution id))%list;
           elapsed := elapsed s + 5000 * Z.of_nat (length states);
           console := console s |}.
Proof.
  induction states as [| state states IH]; intros s tail Hall Hs.
  - cbn in *. rewrite app_nil_r, Z.add_0_r. destruct s; cbn in *; subst.
    reflexivity.
  - inversion Hall as [| ? ? Hp Hall']; subst. cbn in Hs.
    rewrite (poll_pending client id s _ _ Hs Hp).
    rewrite (IH (waited 5000 (polled client id _ s)) tail Hall'); [| reflexivity].
    cbn.
    rewrite <- app_assoc. cbn.
    replace (elapsed s + 5000 + 5000 * Z.of_nat (length states))
      with (elapsed s + 5000 * Z.pos (Pos.of_succ_nat (length states)))
      by lia.
    reflexivity.
Qed.

(** One status check of the poller, and what follows it. *)
Lemma waitForQueryCompletion_unfold (client : AthenaClient) (id : string) :
  waitForQueryCompletion client id
  ≈ (result <- ITree.trigger (Send client (GetQueryExecutionCommand id)) ;;
     match result with
     | inl e => Ret (inl e)
     | inr result =>
         let status := State (Status (QueryExecution result)) in
         if String.eqb status "SUCCEEDED" then Ret (inr tt)
         else if String.eqb status "FAILED" || String.eqb status "CANCELLED"
         then Ret (inl (Error_ ("Query execution failed or was cancelled: "
                                ++ id)))
         else
           do ITree.trigger (SetTimeout 5000) ;;
           waitForQueryCompletion client id
     end).
Proof.
  unfold waitForQueryCompletion at 1. rewrite unfold_iter.
  unfold waitForQueryCompletion_body at 1. rewrite bind_bind.
  apply eutt_eq_bind. intros [e | result].
  - rewrite bind_ret_l. reflexivity.
  - cbn zeta. destruct (String.eqb _ "SUCCEEDED").
    + rewrite bind_ret_l. reflexivity.
    + destruct (_ || _).
      * rewrite bind_ret_l. reflexivity.
      * rewrite bind_bind. apply eutt_eq_bind. intros [].
        rewrite bind_ret_l, tau_eutt. reflexivity.
Qed.

(** Against a service that reports RUNNING for ever, the poller never
    returns: its run is the silent divergence. *)
Lemma poll_stuck (client : AthenaClient) (id : string) : forall clock : Z,
  interp_state stuck (waitForQueryCompletion client id) clock ≈ ITree.spin.
Proof.
  ginit. gcofix CIH. intros clock.
  unfold waitForQueryCompletion. rewrite unfold_iter.
  unfold waitForQueryCompletion_body at 1.
  rewrite bind_bind, interp_state_bind, interp_state_trigger_eqit.
  unfold stuck at 1. cbn. rewrite !bind_ret_l, bind_tau. cbn.
  rewrite (itree_eta ITree.spin). cbn.
  gstep. constructor.
  rewrite !bind_ret_l. cbn.
  rewrite bind_bind, interp_state_bind, interp_state_trigger_eqit.
  unfold stuck at 1. cbn. rewrite !bind_ret_l, bind_tau.
  rewrite (itree_eta ITree.spin). cbn.
  gstep. constructor.
  rewrite !bind_ret_l. cbn. rewrite interp_state_tau.
  rewrite (itree_eta ITree.spin). cbn.
  gstep. constructor.
  gfinal. left. apply CIH.
Qed.

(** The poller against a service that reports [states], none of them one
    of the three the poller names, and then [final], one of the three. *)
Lemma waitForQueryCompletion_run (client : AthenaClient) (id : string)
    (states : list string) (final : string) (s : Service)
    (rest : list (JsError + GetQueryExecutionOutput)) :
  Forall (fun state => state <> "SUCCEEDED" /\ state <> "FAILED"
                       /\ state <> "CANCELLED") states ->
  final = "SUCCEEDED" \/ final = "FAILED" \/ final = "CANCELLED" ->
  executions s
  = (List.map (fun state => inr (execution_in state)) states
     ++ inr (execution_in final) :: rest)%list ->
  run_stub (waitForQueryCompletion client id) s
  ≈ Ret (after_polling client id (length states) rest s,
         if String.eqb final "SUCCEEDED" then inr tt
         else inl (Error_ ("Query execution failed or was cancelled: "
                           ++ id))).
Proof.
  intros Hpending Hfinal Hs.
  rewrite (poll_all_pending client id states s
             (inr (execution_in final) :: rest)); [| | exact Hs].
  2: { eapply Forall_impl; [exact Hpending |]. intros state H.
       by apply pending_true. }
  match goal with
  | |- run_stub _ ?s1 ≈ _ => set (s' := s1)
  end.
  assert (after_polling client id (length states) rest s
          = polled client id rest s') as ->.
  { unfold after_polling, polled, s'.
    cbn [submissions executions pages received elapsed console].
    by rewrite replicate_S_end, app_assoc. }
  destruct Hfinal as [-> | Hfinal].
  - by rewrite (poll_succeeded client id s' (execution_in "SUCCEEDED") rest).
  - rewrite (poll_failed client id s' (execution_in final) rest);
      [| done | exact Hfinal].
    by destruct Hfinal as [-> | ->].
Qed.

(** C3. On a status check the poller returns normally on SUCCEEDED, throws
    an error that carries the execution identifier on FAILED or CANCELLED,
    propagates a rejection of the call, and on any other status waits 5000
    milliseconds (the 5 seconds of the fixed delay) and checks again. There
    is no bound on the number of checks and no timeout: against a service
    that reports any number n of other statuses before a final one, the
    poller makes n + 1 checks for the identifier, waits n times 5000
    milliseconds, and ends as the final status says; against a service that
    reports RUNNING for ever, it never returns. *)
Theorem waitForQueryCompletion_polls (client : AthenaClient) (id : string) :
  waitForQueryCompletion client id
  ≈ (result <- ITree.trigger (Send client (GetQueryExecutionCommand id)) ;;
     match result with
     | inl e => Ret (inl e)
     | inr result =>
         let status := State (Status (QueryExecution result)) in
         if String.eqb status "SUCCEEDED" then Ret (inr tt)
         else if String.eqb status "FAILED" || String.eqb status "CANCELLED"
         then Ret (inl (Error_ ("Query execution failed or was cancelled: "
                                ++ id)))
         else
           do ITree.trigger (SetTimeout 5000) ;;
           waitForQueryCompletion client id
     end)
  /\ (forall (states : list string) (final : string) (s : Service)
             (rest : list (JsError + GetQueryExecutionOutput)),
       Forall (fun state => state <> "SUCCEEDED" /\ state <> "FAILED"
                            /\ state <> "CANCELLED") states ->
       final = "SUCCEEDED" \/ final = "FAILED" \/ final = "CANCELLED" ->
       executions s
       = (List.map (fun state => inr (execution_in state)) states
          ++ inr (execution_in final) :: rest)%list ->
       run_stub (waitForQueryCompletion client id) s
       ≈ Ret (after_polling client id (length states) rest s,
              if String.eqb final "SUCCEEDED" then inr tt
              else inl (Error_ ("Query execution failed or was cancelled: "
                                ++ id))))
  /\ (forall clock : Z,
        interp_state stuck (waitForQueryCompletion client id) clock
        ≈ ITree.spin).
Proof.
  split; [apply waitForQueryCompletion_unfold |].
  split; [apply waitForQueryCompletion_run | apply poll_stuck].
Qed.

(** QUEUED, RUNNING, then CANCELLED: three checks, two waits, an error. *)
Lemma waitForQueryCompletion_polls_witness :
  let client := {| region := "us-east-1"; credentials := fromIni "reports" |} in
  let s := {| submissions := []; 
              executions := [inr (execution_in "QUEUED");
                             inr (execution_in "RUNNING");
                             inr (execution_in "CANCELLED")];
              pages := []; received := []; elapsed := 0; console := [] |} in
  run_stub (waitForQueryCompletion client "q-1") s
  ≈ Ret ({| submissions := []; executions := []; pages := [];
            received := [(client, Request_GetQueryExecution "q-1");
                         (client, Request_GetQueryExecution "q-1");
                         (client, Request_GetQueryExecution "q-1")];
            elapsed := 10000; console := [] |},
         inl (Error_ "Query execution failed or was cancelled: q-1")).
Proof.
  intros client s.
  apply (proj1 (proj2 (waitForQueryCompletion_polls client "q-1"))
           ["QUEUED"; "RUNNING"] "CANCELLED" s []).
  - repeat constructor; discriminate.
  - right. right. reflexivity.
  - reflexivity.
Defined.

(** ** The paginator *)

Lemma page_loop (client : AthenaClient) (id : string)
    (more : list GetQueryResultsOutput) :
  forall (last : GetQueryResultsOutput) rest (st : PageLoop) (s : Service),
    Forall (fun page => truthy (NextToken page) = true) more ->
    truthy (NextToken last) = false ->
    pages s = (List.map inr more ++ inr last :: rest)%list ->
    run_stub (ITree.iter (getQueryResults_body client id) st) s
    ≈ Ret (after_paging client id (next_param st) more rest s,
           inr {| qr_rows :=
                    (allRows st
                     ++ concat (List.map page_rows (more ++ [last])))%list;
                  qr_resultSetMetadata :=
                    Some (default (page_metadata (hd last more))
                            (resultSetMetadata st)) |}).
Proof.
  induction more as [| page more IH]; intros last rest st s Hmore Hlast Hs.
  - rewrite unfold_iter. unfold getQueryResults_body at 1.
    run_event. cbn in Hs. rewrite Hs. cbn. rewrite Hlast.
    rewrite bind_ret_l, run_stub_ret.
    apply eqit_Ret. unfold after_paging, next_param, page_rows, page_metadata.
    cbn. rewrite app_nil_r. by destruct (resultSetMetadata st).
  - inversion Hmore as [| ? ? Hpage Hmore']; subst.
    rewrite unfold_iter. unfold getQueryResults_body at 1.
    run_event. cbn in Hs. rewrite Hs. cbn. rewrite Hpage.
    rewrite bind_ret_l, run_stub_tau.
    rewrite (IH last rest); [| done | done | reflexivity].
    apply eqit_Ret. unfold after_paging, next_param, page_rows, page_metadata.
    cbn. rewrite Hpage. rewrite <- !app_assoc. cbn.
    by destruct (resultSetMetadata st).
Qed.

(** The paginator against a service that has pages to serve. *)
Lemma getQueryResults_run (client : AthenaClient) (id : string)
    (more : list GetQueryResultsOutput) (last : GetQueryResultsOutput)
    (rest : list (JsError + GetQueryResultsOutput)) (s : Service) :
  Forall (fun page => truthy (NextToken page) = true) more ->
  truthy (NextToken last) = false ->
  pages s = (List.map inr more ++ inr last :: rest)%list ->
  run_stub (getQueryResults client id) s
  ≈ Ret (after_paging client id None more rest s,
         inr {| qr_rows := concat (List.map page_rows (more ++ [last]));
                qr_resultSetMetadata := Some (page_metadata (hd last more)) |}).
Proof.
  intros Hmore Hlast Hs. unfold getQueryResults.
  by rewrite (page_loop client id more last rest _ s Hmore Hlast Hs).
Qed.

(** C4. For every sequence of result pages, of which all but the last carry
    a continuation token, the paginator fetches each page once, in order,
    sending with each request after the first the token of the page before;
    it stops at the first page without a token, leaving what the service
    had after it unfetched, and returns the rows of all fetched pages,
    appended in page order. With two pages, of 3 rows and the token [t2] and
    of 2 rows and no token, it returns 5 rows after two requests. *)
Theorem getQueryResults_accumulates (client : AthenaClient) (id : string) :
  (forall (more : list GetQueryResultsOutput) (last : GetQueryResultsOutput)
          (rest : list (JsError + GetQueryResultsOutput)) (s : Service),
      Forall (fun page => truthy (NextToken page) = true) more ->
      truthy (NextToken last) = false ->
      pages s = (List.map inr more ++ inr last :: rest)%list ->
      run_stub (getQueryResults client id) s
      ≈ Ret (after_paging client id None more rest s,
             inr {| qr_rows := concat (List.map page_rows (more ++ [last]));
                    qr_resultSetMetadata :=
                      Some (page_metadata (hd last more)) |}))
  /\ (forall (r1 r2 r3 r4 r5 : Row) (m1 m2 : ResultSetMetadata_t),
        let page1 :=
          {| ResultSet := {| Rows := [r1; r2; r3]; ResultSetMetadata := m1 |};
             NextToken := Some "t2" |} in
        let page2 :=
          {| ResultSet := {| Rows := [r4; r5]; ResultSetMetadata := m2 |};
             NextToken := None |} in
        exists (s' : Service) (queryResults : QueryResults),
          run_stub (getQueryResults client id)
            {| submissions := []; executions := [];
               pages := [inr page1; inr page2];
               received := []; elapsed := 0; console := [] |}
          ≈ Ret (s', inr queryResults)
          /\ qr_rows queryResults = [r1; r2; r3; r4; r5]
          /\ length (qr_rows queryResults) = 5%nat
          /\ pages s' = []
          /\ received s' = [(client, Request_GetQueryResults id None);
                            (client, Request_GetQueryResults id (Some "t2"))]).
Proof.
  split; [apply getQueryResults_run |].
  intros r1 r2 r3 r4 r5 m1 m2 page1 page2.
  eexists _, _. split.
  - apply (getQueryResults_run client id [page1] page2 []);
      [by repeat constructor | done | done].
  - cbn. done.
Qed.

(** Three pages are fetched; a fourth, after the page without a token, is
    not. *)
Lemma getQueryResults_accumulates_witness :
  let client := {| region := "us-east-1"; credentials := fromIni "reports" |} in
  let metadata := {| ColumnInfo := [{| Name := "id"; Type_ := "integer" |}] |} in
  let cell s := {| Data := [{| VarCharValue := Some s |}] |} in
  let page rows token :=
    {| ResultSet := {| Rows := rows; ResultSetMetadata := metadata |};
       NextToken := token |} in
  run_stub (getQueryResults client "q-1")
    {| submissions := []; executions := [];
       pages := [inr (page [cell "id"; cell "1"] (Some "t2"));
                 inr (page [cell "2"] (Some "t3"));
                 inr (page [cell "3"] None);
                 inr (page [cell "4"] None)];
       received := []; elapsed := 0; console := [] |}
  ≈ Ret ({| submissions := []; executions := [];
            pages := [inr (page [cell "4"] None)];
            received := [(client, Request_GetQueryResults "q-1" None);
                         (client, Request_GetQueryResults "q-1" (Some "t2"));
                         (client, Request_GetQueryResults "q-1" (Some "t3"))];
            elapsed := 0; console := [] |},
         inr {| qr_rows := [cell "id"; cell "1"; cell "2"; cell "3"];
                qr_resultSetMetadata := Some metadata |}).
Proof.
  intros client metadata cell page.
  apply (proj1 (getQueryResults_accumulates client "q-1")
           [page [cell "id"; cell "1"] (Some "t2"); page [cell "2"] (Some "t3")]
           (page [cell "3"] None) [inr (page [cell "4"] None)]).
  - repeat constructor.
  - reflexivity.
  - reflexivity.
Defined.

Lemma assign_all_by_position columns data :
  assign_all (zip columns data) empty_object
  = assign_by_position (List.map mapAthenaTypeToEvidenceType columns) data.
Proof.
  unfold assign_all, assign_by_position. generalize empty_object.
  revert data. induction columns as [| column columns IH]; intros data acc.
  - reflexivity.
  - destruct data as [| d data]; [reflexivity |]. cbn. apply IH.
Qed.

Lemma names_of_columnTypes columns :
  List.map name (List.map mapAthenaTypeToEvidenceType columns)
  = List.map Name columns.
Proof.
  induction columns as [| column columns IH]; cbn; [done | by rewrite IH].
Qed.

(** C5. For every multi-page result set, each page carrying metadata, the
    metadata the paginator returns is that of the first page, whatever the
    later pages carry; so in every
    output of the formatter, the entries of [columnTypes] are those of the
    first page's [ColumnInfo], in that order, and each output row is the
    object built by assigning the cells of its raw row, in order, to the
    names of the entries of [columnTypes] at the same positions. *)
Theorem columnTypes_from_first_page (client : AthenaClient) (id : string)
    (more : list GetQueryResultsOutput) (last : GetQueryResultsOutput)
    (rest : list (JsError + GetQueryResultsOutput)) (s : Service) :
  Forall (fun page => truthy (NextToken page) = true) more ->
  truthy (NextToken last) = false ->
  pages s = (List.map inr more ++ inr last :: rest)%list ->
  let first := hd last more in
  exists (s' : Service) (queryResults : QueryResults),
    run_stub (getQueryResults client id) s ≈ Ret (s', inr queryResults)
    /\ qr_rows queryResults = concat (List.map page_rows (more ++ [last]))
    /\ qr_resultSetMetadata queryResults = Some (page_metadata first)
    /\ forall output : MappedOutput,
         mapQueryResults queryResults = inr output ->
         columnTypes output
         = List.map mapAthenaTypeToEvidenceType
             (ColumnInfo (page_metadata first))
         /\ List.map name (columnTypes output)
            = List.map Name (ColumnInfo (page_metadata first))
         /\ Forall2
              (fun row mappedRow =>
                 mappedRow = assign_by_position (columnTypes output) (Data row))
              (drop 1 (qr_rows queryResults)) (rows output).
Proof.
  intros Hmore Hlast Hs first.
  eexists _, _. split.
  { apply (getQueryResults_run client id more last rest s); done. }
  cbn [qr_rows qr_resultSetMetadata]. split; [done |]. split; [done |].
  intros output Hout. apply mapQueryResults_inr in Hout as (Hrows & Htypes & _).
  split; [done |]. split.
  - rewrite Htypes. apply names_of_columnTypes.
  - eapply Forall2_impl; [exact Hrows |]. intros row mappedRow Hrow.
    cbn in Hrow. apply mapRow_inr in Hrow as [_ ->].
    rewrite Htypes. apply assign_all_by_position.
Qed.

(** Two pages whose metadata differ: the column types are the first
    page's. *)
Lemma columnTypes_from_first_page_witness :
  let client := {| region := "us-east-1"; credentials := fromIni "reports" |} in
  let first_metadata :=
    {| ColumnInfo := [{| Name := "id"; Type_ := "integer" |};
                      {| Name := "day"; Type_ := "date" |}] |} in
  let later_metadata :=
    {| ColumnInfo := [{| Name := "day"; Type_ := "varchar" |}] |} in
  let cells a b :=
    {| Data := [{| VarCharValue := Some a |}; {| VarCharValue := Some b |}] |} in
  let page1 :=
    {| ResultSet := {| Rows := [cells "id" "day"; cells "1" "2024-01-15"];
                       ResultSetMetadata := first_metadata |};
       NextToken := Some "t2" |} in
  let page2 :=
    {| ResultSet := {| Rows := [cells "2" "2024-01-16"];
                       ResultSetMetadata := later_metadata |};
       NextToken := None |} in
  exists (s' : Service) (queryResults : QueryResults) (output : MappedOutput),
    run_stub (getQueryResults client "q-1")
      {| submissions := []; executions := [];
         pages := [inr page1; inr page2];
         received := []; elapsed := 0; console := [] |}
    ≈ Ret (s', inr queryResults)
    /\ mapQueryResults queryResults = inr output
    /\ List.map name (columnTypes output) = ["id"; "day"]
    /\ List.map evidenceType (columnTypes output) = [NUMBER; DATE].
Proof.
  intros client first_metadata later_metadata cells page1 page2.
  destruct (columnTypes_from_first_page client "q-1" [page1] page2 []
              {| submissions := []; executions := [];
                 pages := [inr page1; inr page2];
                 received := []; elapsed := 0; console := [] |})
    as (s' & queryResults & Hrun & Hrows & Hmetadata & Hout).
  - repeat constructor.
  - reflexivity.
  - reflexivity.
  - destruct queryResults as [all_rows metadata]. cbn in Hrows, Hmetadata.
    subst all_rows metadata.
    exists s'. eexists. eexists. split; [exact Hrun |].
    split; [reflexivity |].
    edestruct Hout as (Htypes & Hnames & _); [reflexivity |].
    split; [exact Hnames |]. reflexivity.
Defined.

(** ** The connection tester *)

(** C9. For every value of the options, [testConnection] is fulfilled with
    [true] and calls nothing: the promise is a bare result, and a service
    is left as it was. *)
Theorem testConnection_always_true (options : ConnectorOptions) :
  testConnection options = Ret (inr true)
  /\ forall s : Service,
       run_stub (testConnection options) s ≈ Ret (s, inr true).
Proof.
  split; [reflexivity |]. intros s. unfold testConnection.
  apply run_stub_ret.
Qed.

(** ** Loading the module *)

(** C7, as stated, fails: with the variable present and empty, the module
    throws and constructs no client. *)
Lemma load_module_profile_counterexample :
  let env : gmap string string := {[ "AUX_PROFILE" := "" ]} in
  env !! "AUX_PROFILE" = Some ""
  /\ load_module env
     = ([], inl (Error_ "Environment variable AUX_PROFILE is not set.")).
Proof. split; reflexivity. Qed.

(** C7 (amended). If the credential-profile variable is absent or empty
    when the module is loaded, the module throws before any client is
    constructed and exports nothing, so no query can run. If it is present
    and not empty, exactly one client is constructed, bound to the region
    us-east-1 and to the credentials of that profile, and the exported
    runner is the one that sends every command through that client. *)
Theorem load_module_profile (env : gmap string string) :
  (env !! "AUX_PROFILE" = None \/ env !! "AUX_PROFILE" = Some "" ->
   load_module env
   = ([], inl (Error_ "Environment variable AUX_PROFILE is not set.")))
  /\ (forall profile : string,
        env !! "AUX_PROFILE" = Some profile ->
        profile <> "" ->
        let client :=
          {| region := "us-east-1"; credentials := fromIni profile |} in
        load_module env
        = ([client],
           inr {| exports_getRunner := getRunner client;
                  exports_testConnection := testConnection |})).
Proof.
  unfold load_module. split.
  - intros [-> | ->]; reflexivity.
  - intros profile -> Hne. cbn.
    apply String.eqb_neq in Hne. by rewrite Hne.
Qed.

(** An empty environment, and one that names the profile [reports]. *)
Lemma load_module_profile_witness :
  let client := {| region := "us-east-1"; credentials := fromIni "reports" |} in
  load_module ∅ = ([], inl (Error_ "Environment variable AUX_PROFILE is not set."))
  /\ load_module {[ "AUX_PROFILE" := "reports" ]}
     = ([client],
        inr {| exports_getRunner := getRunner client;
               exports_testConnection := testConnection |}).
Proof.
  split.
  - apply (load_module_profile ∅). left. reflexivity.
  - apply (proj2 (load_module_profile {[ "AUX_PROFILE" := "reports" ]})
             "reports").
    + reflexivity.
    + discriminate.
Defined.

(** ** The runner *)

Lemma run_await_inl {A B : Type} (p : Promise A) (k : A -> Promise B)
    (s s' : Service) (e : JsError) :
  run_stub p s ≈ Ret (s', inl e) ->
  run_stub (await_bind p k) s ≈ Ret (s', inl e).
Proof.
  intros Hp. unfold await_bind. rewrite run_stub_bind, Hp, bind_ret_l. cbn.
  apply run_stub_ret.
Qed.

Lemma run_await_inr {A B : Type} (p : Promise A) (k : A -> Promise B)
    (s s' : Service) (a : A) :
  run_stub p s ≈ Ret (s', inr a) ->
  run_stub (await_bind p k) s ≈ run_stub (k a) s'.
Proof.
  intros Hp. unfold await_bind. rewrite run_stub_bind, Hp, bind_ret_l. cbn.
  reflexivity.
Qed.

Lemma run_submission (client : AthenaClient) (params : StartQueryExecutionInput)
    (s : Service) answer rest :
  submissions s = answer :: rest ->
  run_stub (ITree.trigger (Send client (StartQueryExecutionCommand params))) s
  ≈ Ret (submitted client params rest s, answer).
Proof.
  intros Hs. rewrite run_stub_trigger. cbn. rewrite Hs. reflexivity.
Qed.

(** A run of the runner whose [try] block throws: the error is written to
    the console and the runner is fulfilled with [undefined]. *)
Lemma run_getRunner_caught (client : AthenaClient) (options : ConnectorOptions)
    (queryText queryPath : string) (s s' : Service) (e : JsError) :
  run_stub (runner_try client options queryText) s ≈ Ret (s', inl e) ->
  run_stub (getRunner client options queryText queryPath) s
  ≈ Ret (logged e s', inr None).
Proof.
  intros Htry. unfold getRunner. rewrite run_stub_bind, Htry, bind_ret_l. cbn.
  run_event. apply run_stub_ret.
Qed.

Lemma run_getRunner_returned (client : AthenaClient)
    (options : ConnectorOptions) (queryText queryPath : string)
    (s s' : Service) (output : MappedOutput) :
  run_stub (runner_try client options queryText) s ≈ Ret (s', inr output) ->
  run_stub (getRunner client options queryText queryPath) s
  ≈ Ret (s', inr (Some output)).
Proof.
  intros Htry. unfold getRunner. rewrite run_stub_bind, Htry, bind_ret_l. cbn.
  apply run_stub_ret.
Qed.

(** The [try] block, stage by stage. *)
Section Runner_stages.

Variables (client : AthenaClient) (options : ConnectorOptions)
          (queryText : string).
Variables (s : Service) (rest : list (JsError + StartQueryExecutionOutput)).

Let s1 : Service :=
  submitted client (runner_params options queryText) rest s.

Lemma runner_try_submission_rejected e :
  submissions s = inl e :: rest ->
  run_stub (runner_try client options queryText) s ≈ Ret (s1, inl e).
Proof.
  intros Hs. unfold runner_try. cbn zeta.
  apply run_await_inl. by apply run_submission.
Qed.

Variable response : StartQueryExecutionOutput.
Hypothesis Hsubmitted : submissions s = inr response :: rest.

Lemma runner_try_polling_failed s2 e :
  run_stub (waitForQueryCompletion client (QueryExecutionId response)) s1
  ≈ Ret (s2, inl e) ->
  run_stub (runner_try client options queryText) s ≈ Ret (s2, inl e).
Proof.
  intros Hwait. subst s1. unfold runner_try. cbn zeta.
  rewrite run_await_inr by (by apply run_submission). cbn beta.
  by apply run_await_inl.
Qed.

Lemma runner_try_paging_failed s2 s3 e :
  run_stub (waitForQueryCompletion client (QueryExecutionId response)) s1
  ≈ Ret (s2, inr tt) ->
  run_stub (getQueryResults client (QueryExecutionId response)) s2
  ≈ Ret (s3, inl e) ->
  run_stub (runner_try client options queryText) s ≈ Ret (s3, inl e).
Proof.
  intros Hwait Hpages. subst s1. unfold runner_try. cbn zeta.
  rewrite run_await_inr by (by apply run_submission). cbn beta.
  rewrite (run_await_inr _ _ _ _ _ Hwait).
  by apply run_await_inl.
Qed.

Lemma runner_try_mapped s2 s3 queryResults :
  run_stub (waitForQueryCompletion client (QueryExecutionId response)) s1
  ≈ Ret (s2, inr tt) ->
  run_stub (getQueryResults client (QueryExecutionId response)) s2
  ≈ Ret (s3, inr queryResults) ->
  run_stub (runner_try client options queryText) s
  ≈ Ret (s3, match mapQueryResults queryResults with
             | inl e => inl e
             | inr output => inr (reifyDates output)
             end).
Proof.
  intros Hwait Hpages. subst s1. unfold runner_try. cbn zeta.
  rewrite run_await_inr by (by apply run_submission). cbn beta.
  rewrite (run_await_inr _ _ _ _ _ Hwait).
  rewrite (run_await_inr _ _ _ _ _ Hpages).
  destruct (mapQueryResults queryResults); apply run_stub_ret.
Qed.

End Runner_stages.

(** C8. The runner never rejects: whatever the environment answers, every
    result of the runner is a fulfilment. An error thrown in its [try]
    block, under any meaning of the environment's calls, is written to the
    console and the runner is fulfilled with [undefined]. Against the
    scripted service this is what happens to an error of each stage, none of
    which is caught before: a rejected submission, an error out of the
    poller, an error out of the paginator, an exception of the formatter. *)
Theorem getRunner_swallows_errors (client : AthenaClient)
    (options : ConnectorOptions) (queryText queryPath : string) :
  (forall r : JsError + option MappedOutput,
      Leaf r (getRunner client options queryText queryPath) ->
      exists result : option MappedOutput, r = inr result)
  /\ (forall (S : Type) (h : connectorE ~> Monads.stateT S (itree void1))
             (s s' : S) (e : JsError),
        interp_state h (runner_try client options queryText) s
        ≈ Ret (s', inl e) ->
        interp_state h (getRunner client options queryText queryPath) s
        ≈ ITree.bind (h unit (ConsoleError "Error executing query:" e) s')
            (fun sr => Ret (fst sr, inr None)))
  /\ (forall (s : Service) (rest : list (JsError + StartQueryExecutionOutput)),
        let s1 := submitted client (runner_params options queryText) rest s in
        let runner := getRunner client options queryText queryPath in
        (forall e,
            submissions s = inl e :: rest ->
            run_stub runner s ≈ Ret (logged e s1, inr None))
        /\ (forall response s2 e,
              submissions s = inr response :: rest ->
              run_stub
                (waitForQueryCompletion client (QueryExecutionId response)) s1
              ≈ Ret (s2, inl e) ->
              run_stub runner s ≈ Ret (logged e s2, inr None))
        /\ (forall response s2 s3 e,
              submissions s = inr response :: rest ->
              run_stub
                (waitForQueryCompletion client (QueryExecutionId response)) s1
              ≈ Ret (s2, inr tt) ->
              run_stub (getQueryResults client (QueryExecutionId response)) s2
              ≈ Ret (s3, inl e) ->
              run_stub runner s ≈ Ret (logged e s3, inr None))
        /\ (forall response s2 s3 queryResults e,
              submissions s = inr response :: rest ->
              run_stub
                (waitForQueryCompletion client (QueryExecutionId response)) s1
              ≈ Ret (s2, inr tt) ->
              run_stub (getQueryResults client (QueryExecutionId response)) s2
              ≈ Ret (s3, inr queryResults) ->
              mapQueryResults queryResults = inl e ->
              run_stub runner s ≈ Ret (logged e s3, inr None))).
Proof.
  split; [| split].
  - intros r Hleaf. unfold getRunner in Hleaf.
    apply Leaf_bind_inv in Hleaf as ([e | output] & _ & Hk).
    + apply Leaf_bind_inv in Hk as (u & _ & Hret).
      apply Leaf_Ret_inv in Hret. eauto.
    + apply Leaf_Ret_inv in Hk. eauto.
  - intros S h s s' e Htry. unfold getRunner.
    rewrite interp_state_bind, Htry, bind_ret_l. cbn.
    rewrite interp_state_bind, interp_state_trigger.
    apply eutt_eq_bind. intros [s'' []]. cbn.
    rewrite interp_state_ret. reflexivity.
  - intros s rest s1 runner. split; [| split; [| split]].
    + intros e Hs. apply run_getRunner_caught.
      by apply runner_try_submission_rejected.
    + intros response s2 e Hs Hwait. apply run_getRunner_caught.
      by apply (runner_try_polling_failed _ _ _ _ rest response).
    + intros response s2 s3 e Hs Hwait Hpages. apply run_getRunner_caught.
      by apply (runner_try_paging_failed _ _ _ _ rest response Hs s2).
    + intros response s2 s3 queryResults e Hs Hwait Hpages Hmap.
      apply run_getRunner_caught.
      rewrite (runner_try_mapped _ _ _ _ rest response Hs s2 s3 queryResults);
        [| done | done].
      by rewrite Hmap.
Qed.

(** A query that the service reports as FAILED on the second check. *)
Lemma getRunner_swallows_errors_witness :
  let client := {| region := "us-east-1"; credentials := fromIni "reports" |} in
  let options :=
    {| database := "sales"; catalog := "AwsDataCatalog";
       outputBucket := "results"; testTableName := "orders" |} in
  let params :=
    {| QueryString := "select 1";
       QueryExecutionContext :=
         {| Database := "sales"; Catalog := "AwsDataCatalog" |};
       ResultConfiguration := {| OutputLocation := "s3://results" |} |} in
  let error := Error_ "Query execution failed or was cancelled: q-1" in
  run_stub (getRunner client options "select 1" "queries/one.sql")
    {| submissions := [inr {| QueryExecutionId := "q-1" |}];
       executions := [inr (execution_in "RUNNING");
                      inr (execution_in "FAILED")];
       pages := []; received := []; elapsed := 0; console := [] |}
  ≈ Ret ({| submissions := []; executions := []; pages := [];
            received := [(client, Request_StartQueryExecution params);
                         (client, Request_GetQueryExecution "q-1");
                         (client, Request_GetQueryExecution "q-1")];
            elapsed := 5000;
            console := [("Error executing query:", error)] |},
         inr None).
Proof.
  intros client options params error.
  set (s := {| submissions := [inr {| QueryExecutionId := "q-1" |}];
               executions := [inr (execution_in "RUNNING");
                              inr (execution_in "FAILED")];
               pages := []; received := []; elapsed := 0; console := [] |}).
  destruct (proj2 (proj2 (getRunner_swallows_errors client options "select 1"
                            "queries/one.sql")) s [])
    as (_ & Hpolling & _).
  apply (Hpolling {| QueryExecutionId := "q-1" |}
           {| submissions := []; executions := []; pages := [];
              received := [(client, Request_StartQueryExecution params);
                           (client, Request_GetQueryExecution "q-1");
                           (client, Request_GetQueryExecution "q-1")];
              elapsed := 5000; console := [] |} error); [reflexivity |].
  cbn [QueryExecutionId].
  rewrite (poll_pending client "q-1" _ (execution_in "RUNNING")
             [inr (execution_in "FAILED")]); [| reflexivity | reflexivity].
  rewrite (poll_failed client "q-1" _ (execution_in "FAILED") []);
    [| reflexivity | left; reflexivity].
  reflexivity.
Defined.


(** A whole query against the scripted service: submitted, polled twice,
    fetched in two pages, formatted, the date column reified. Every request
    comes from the one client. *)
Example getRunner_end_to_end :
  let client := {| region := "us-east-1"; credentials := fromIni "reports" |} in
  let options :=
    {| database := "sales"; catalog := "AwsDataCatalog";
       outputBucket := "results"; testTableName := "orders" |} in
  let metadata :=
    {| ColumnInfo := [{| Name := "id"; Type_ := "integer" |};
                      {| Name := "day"; Type_ := "date" |}] |} in
  let cells a b :=
    {| Data := [{| VarCharValue := Some a |}; {| VarCharValue := Some b |}] |} in
  let page rows token :=
    {| ResultSet := {| Rows := rows; ResultSetMetadata := metadata |};
       NextToken := token |} in
  let s :=
    {| submissions := [inr {| QueryExecutionId := "q-1" |}];
       executions := [inr (execution_in "RUNNING");
                      inr (execution_in "SUCCEEDED")];
       pages := [inr (page [cells "id" "day"; cells "1" "2024-01-15"]
                        (Some "t2"));
                 inr (page [cells "2" "2024-02-01"] None)];
       received := []; elapsed := 0; console := [] |} in
  exists (s' : Service) (output : MappedOutput),
    run_stub (getRunner client options "select id, day from orders"
                "queries/orders.sql") s
    ≈ Ret (s', inr (Some output))
    /\ expectedRowCount output = 2%nat
    /\ List.map name (columnTypes output) = ["id"; "day"]
    /\ List.map (fun row => (row !! "id", row !! "day")) (rows output)
       = [(Some (JsString "1"), Some (JsDate (TimeMs 1705276800000)));
          (Some (JsString "2"), Some (JsDate (TimeMs 1706745600000)))]
    /\ List.map fst (received s') = [client; client; client; client; client]
    /\ elapsed s' = 5000
    /\ console s' = [].
Proof.
  intros client options metadata cells page s.
  set (response := {| QueryExecutionId := "q-1" |}).
  set (s1 := submitted client
               (runner_params options "select id, day from orders") [] s).
  set (s2 := after_polling client "q-1" 1 [] s1).
  set (page1 := page [cells "id" "day"; cells "1" "2024-01-15"] (Some "t2")).
  set (page2 := page [cells "2" "2024-02-01"] None).
  set (s3 := after_paging client "q-1" None [page1] [] s2).
  assert (run_stub (waitForQueryCompletion client "q-1") s1 ≈ Ret (s2, inr tt))
    as Hwait.
  { apply (waitForQueryCompletion_run client "q-1" ["RUNNING"] "SUCCEEDED" s1 []).
    - repeat constructor; discriminate.
    - by left.
    - reflexivity. }
  assert (run_stub (getQueryResults client "q-1") s2
          ≈ Ret (s3, inr {| qr_rows := concat (List.map page_rows [page1; page2]);
                            qr_resultSetMetadata := Some metadata |}))
    as Hpages.
  { apply (getQueryResults_run client "q-1" [page1] page2 [] s2).
    - repeat constructor.
    - reflexivity.
    - reflexivity. }
  destruct (mapQueryResults
              {| qr_rows := concat (List.map page_rows [page1; page2]);
                 qr_resultSetMetadata := Some metadata |})
    as [e | output] eqn:Hmap; [discriminate |].
  exists s3, (reifyDates output). split.
  - apply run_getRunner_returned.
    rewrite (runner_try_mapped client options _ s [] response eq_refl s2 s3 _
               Hwait Hpages).
    rewrite Hmap. reflexivity.
  - injection Hmap as <-. repeat split; reflexivity.
Qed.

(** * Further properties *)

(** ** The type mapper, read backwards *)

(** A tag that differs from every element of a list of labels is not in
    it. *)
Ltac not_listed H :=
  repeat (apply elem_of_cons in H as [H | H]; [congruence |]);
  by apply elem_of_nil in H.

(** X1. The mapped type tells the native type tag apart: BOOLEAN only for
    [boolean], NUMBER only for the eight numeric tags, DATE only for [date]
    and [timestamp]; every other tag, listed or not, gives STRING. The match
    is exact: a tag in another case, or with a precision appended, is none
    of these. *)
Theorem mapAthenaTypeToEvidenceType_inversion (column : ColumnInfo_t) :
  let type := evidenceType (mapAthenaTypeToEvidenceType column) in
  (type = BOOLEAN <-> Type_ column = "boolean")
  /\ (type = NUMBER
      <-> Type_ column ∈ ["tinyint"; "smallint"; "int"; "integer"; "bigint";
                          "double"; "float"; "real"])
  /\ (type = DATE <-> Type_ column ∈ ["date"; "timestamp"])
  /\ (type = STRING
      <-> Type_ column ∉ ["boolean"; "tinyint"; "smallint"; "int"; "integer";
                          "bigint"; "double"; "float"; "real"; "date";
                          "timestamp"]).
Proof.
  cbn zeta. rewrite mapAthenaTypeToEvidenceType_lookup.
  destruct column as [column_name tag]. unfold mapping_table. cbn.
  repeat match goal with
         | |- context [String.eqb tag ?label] =>
             destruct (String.eqb_spec tag label) as [-> | ?]
         end;
    cbn; repeat split; intros H;
    first [ discriminate H
          | reflexivity
          | congruence
          | not_listed H
          | let Hin := fresh in intros Hin; not_listed Hin
          | by apply (bool_decide_unpack _)
          | exfalso; revert H; by apply (bool_decide_unpack _) ].
Qed.

(** A column typed [Timestamp], in another case than the mapper's label,
    is a STRING column. *)
Lemma mapAthenaTypeToEvidenceType_inversion_witness :
  evidenceType
    (mapAthenaTypeToEvidenceType {| Name := "at"; Type_ := "Timestamp" |})
  = STRING.
Proof.
  apply (mapAthenaTypeToEvidenceType_inversion
           {| Name := "at"; Type_ := "Timestamp" |}).
  apply (bool_decide_unpack _). vm_compute. exact I.
Defined.

(** ** The keys and values of a formatted row *)

Lemma set_property_is_Some (row : RowObject) (n key : string) (v : JsValue) :
  is_Some (set_property row n v !! key)
  <-> is_Some (row !! key) \/ (n = key /\ key <> "__proto__").
Proof.
  destruct (decide (n = key)) as [-> | Hne].
  - destruct (decide (key = "__proto__")) as [-> | Hproto].
    + destruct (row !! "__proto__") as [w |] eqn:Hw.
      * rewrite set_property_lookup_own by by rewrite Hw. split; eauto.
      * rewrite set_property_lookup_proto by done. split.
        -- by intros [? ?].
        -- intros [[? ?] | [_ ?]]; done.
    + rewrite set_property_lookup_eq by done. split; eauto.
  - rewrite set_property_lookup_ne by done. split; [auto |].
    intros [H | [? _]]; done.
Qed.

Lemma set_property_lookup_Some (row : RowObject) (n key : string)
    (v w : JsValue) :
  set_property row n v !! key = Some w -> row !! key = Some w \/ w = v.
Proof.
  intros Hw. destruct (decide (n = key)) as [-> | Hne].
  - destruct (row !! key) as [u |] eqn:Hu.
    + rewrite set_property_lookup_own in Hw by by rewrite Hu.
      right. congruence.
    + destruct (decide (key = "__proto__")) as [-> | Hproto].
      * by rewrite set_property_lookup_proto in Hw.
      * rewrite set_property_lookup_eq in Hw by done. right. congruence.
  - rewrite set_property_lookup_ne in Hw by done. by left.
Qed.

Lemma assign_all_is_Some pairs : forall mappedRow key,
  is_Some (assign_all pairs mappedRow !! key)
  <-> is_Some (mappedRow !! key)
      \/ (key <> "__proto__"
          /\ exists j pair, pairs !! j = Some pair /\ Name (fst pair) = key).
Proof.
  induction pairs as [| pair pairs IH]; intros mappedRow key.
  - cbn. split; [auto |]. intros [H | (_ & j & pair & Hj & _)]; [done |].
    by rewrite lookup_nil in Hj.
  - cbn. fold (assign_all pairs). rewrite IH, set_property_is_Some. split.
    + intros [[Hacc | [Heq Hproto]] | (Hproto & j & pair' & Hj & Hname)].
      * by left.
      * right. split; [done |]. exists 0%nat, pair. done.
      * right. split; [done |]. exists (S j), pair'. done.
    + intros [Hacc | (Hproto & j & pair' & Hj & Hname)].
      * by left; left.
      * destruct j as [| j]; cbn in Hj.
        -- injection Hj as ->. by left; right.
        -- right. eauto.
Qed.

Lemma assign_all_value pairs : forall mappedRow key v,
  assign_all pairs mappedRow !! key = Some v ->
  mappedRow !! key = Some v \/ exists d, v = value_of_Datum d.
Proof.
  induction pairs as [| pair pairs IH]; intros mappedRow key v Hv.
  - by left.
  - cbn in Hv. fold (assign_all pairs) in Hv.
    apply IH in Hv as [Hv | Hv]; [| by right].
    apply set_property_lookup_Some in Hv as [Hv | ->]; eauto.
Qed.

(** X2. In every output of the formatter, the keys of a row are exactly the
    names other than [__proto__] of the columns at the positions for which
    the raw row has a cell (a row shorter than the column list lacks the
    later columns' keys; a cell of a column named [__proto__] is not
    stored), every value is a string or [undefined], never a date, and the
    prototype of the row is that of every object literal. *)
Theorem mapQueryResults_row_keys (all_rows : list Row)
    (metadata : ResultSetMetadata_t) (output : MappedOutput) (k : nat)
    (row : Row) (mappedRow : RowObject) :
  mapQueryResults
    {| qr_rows := all_rows; qr_resultSetMetadata := Some metadata |}
  = inr output ->
  all_rows !! S k = Some row ->
  rows output !! k = Some mappedRow ->
  (forall key : string,
      is_Some (mappedRow !! key)
      <-> key <> "__proto__"
          /\ exists j column,
               (j < length (Data row))%nat
               /\ ColumnInfo metadata !! j = Some column
               /\ Name column = key)
  /\ (forall (key : string) (v : JsValue),
        mappedRow !! key = Some v ->
        v = undefined \/ exists s, v = JsString s)
  /\ prototype mappedRow = Object_prototype.
Proof.
  intros Hout Hrow Hmapped.
  apply mapQueryResults_inr in Hout as (Hrows & _).
  assert (drop 1 all_rows !! k = Some row) as Hk by by rewrite lookup_drop.
  pose proof (Forall2_lookup_lr _ _ _ _ _ _ Hrows Hk Hmapped) as Hmap.
  apply mapRow_inr in Hmap as [Hle ->]. split; [| split].
  - intros key. rewrite assign_all_is_Some. split.
    + intros [[? H] | (Hproto & j & [column d] & Hj & Hname)]; [discriminate |].
      apply lookup_zip_with_Some in Hj as (? & ? & [= <- <-] & Hc & Hd).
      split; [done |]. exists j, column. apply lookup_lt_Some in Hd. done.
    + intros (Hproto & j & column & Hlt & Hc & Hname). right.
      split; [done |].
      destruct (lookup_lt_is_Some_2 (Data row) j Hlt) as [d Hd].
      exists j, (column, d). split; [| done].
      apply lookup_zip_with_Some. eauto.
  - intros key v Hv. apply assign_all_value in Hv as [Hv | [d ->]].
    + discriminate.
    + unfold value_of_Datum. destruct (VarCharValue d); eauto.
  - by rewrite assign_all_prototype.
Qed.

(** A row of one cell for two columns: the row has the first column's key
    and not the second's. With a first column named [__proto__] instead, the
    row has no key at all. *)
Lemma mapQueryResults_row_keys_witness :
  let metadata :=
    {| ColumnInfo := [{| Name := "id"; Type_ := "integer" |};
                      {| Name := "day"; Type_ := "date" |}] |} in
  let header :=
    {| Data := [{| VarCharValue := Some "id" |};
                {| VarCharValue := Some "day" |}] |} in
  let row := {| Data := [{| VarCharValue := Some "1" |}] |} in
  let proto :=
    {| ColumnInfo := [{| Name := "__proto__"; Type_ := "integer" |};
                      {| Name := "day"; Type_ := "date" |}] |} in
  (exists output mappedRow,
     mapQueryResults
       {| qr_rows := [header; row]; qr_resultSetMetadata := Some metadata |}
     = inr output
     /\ rows output !! 0%nat = Some mappedRow
     /\ is_Some (mappedRow !! "id")
     /\ ~ is_Some (mappedRow !! "day"))
  /\ (exists output mappedRow,
        mapQueryResults
          {| qr_rows := [header; row]; qr_resultSetMetadata := Some proto |}
        = inr output
        /\ rows output !! 0%nat = Some mappedRow
        /\ forall key, ~ is_Some (mappedRow !! key)).
Proof.
  intros metadata header row proto. split.
  - eexists _, _. split; [reflexivity |]. split; [reflexivity |].
    edestruct (mapQueryResults_row_keys [header; row] metadata _ 0%nat row _
                 eq_refl eq_refl eq_refl) as [Hkeys _].
    split.
    + apply Hkeys. split; [discriminate |].
      exists 0%nat, {| Name := "id"; Type_ := "integer" |}.
      cbn. split; [lia | done].
    + intros H. apply Hkeys in H as (_ & j & column & Hlt & Hcol & Hname).
      cbn in Hlt. destruct j as [| j]; [| lia].
      cbn in Hcol. injection Hcol as <-. discriminate Hname.
  - eexists _, _. split; [reflexivity |]. split; [reflexivity |].
    edestruct (mapQueryResults_row_keys [header; row] proto _ 0%nat row _
                 eq_refl eq_refl eq_refl) as [Hkeys _].
    intros key H. apply Hkeys in H as (Hproto & j & column & Hlt & Hcol & Hname).
    cbn in Hlt. destruct j as [| j]; [| lia].
    cbn in Hcol. injection Hcol as <-. by destruct Hproto.
Defined.

(** ** The date loop, by property name *)

Lemma date_named_spec (columnTypes : list ColumnType) (key : string) :
  date_named columnTypes key = true
  <-> exists column,
        column ∈ columnTypes /\ name column = key
        /\ evidenceType column = DATE.
Proof.
  unfold date_named. rewrite existsb_exists. split.
  - intros (column & Hin & Hc). apply andb_true_iff in Hc as [Hname Hdate].
    exists column. rewrite list_elem_of_In.
    by apply String.eqb_eq in Hname; apply is_date_DATE in Hdate.
  - intros (column & Hin & Hname & Hdate). exists column.
    rewrite <- list_elem_of_In. split; [done |].
    apply andb_true_iff. split; [by apply String.eqb_eq |].
    by apply is_date_DATE.
Qed.

(** X3. The date loop works on property names, whatever the columns are.
    In every row, an own property whose name some DATE column carries ends
    up holding the date made from its value, and any other own property
    keeps its value. A name other than [__proto__] that the row does not
    have ends up, when a DATE column carries it, as an own property holding
    the date made from what the row inherits under that name (from its first
    prototype, unless a DATE column is named [__proto__]); otherwise it
    stays absent. The name [__proto__], when the row does not have it, never
    becomes a property of the row: a DATE column of that name makes the
    prototype of the row a date, copied from the prototype it had. *)
Theorem reifyDates_by_name (output : MappedOutput) (k : nat)
    (mappedRow : RowObject) (key : string) :
  rows output !! k = Some mappedRow ->
  let dated key := date_named (columnTypes output) key in
  (dated key = true
   <-> exists column, column ∈ columnTypes output /\ name column = key
                      /\ evidenceType column = DATE)
  /\ exists final,
       rows (reifyDates output) !! k = Some final
       /\ (forall v, mappedRow !! key = Some v ->
             final !! key = Some (if dated key then new_Date v else v))
       /\ (mappedRow !! key = None -> key <> "__proto__" ->
             if dated key
             then exists p,
                    final !! key = Some (new_Date_of (Inherited p key))
                    /\ (dated "__proto__" = false -> p = prototype mappedRow)
             else final !! key = None)
       /\ (mappedRow !! "__proto__" = None ->
             final !! "__proto__" = None
             /\ prototype final
                = if dated "__proto__"
                  then Date_object (prototype_time (prototype mappedRow))
                  else prototype mappedRow).
Proof.
  intros Hmapped dated. split; [apply date_named_spec |].
  exists (reifyDates_row (columnTypes output) mappedRow).
  split; [| split; [| split]].
  - unfold reifyDates. cbn [rows]. by rewrite lookup_List_map, Hmapped.
  - intros v Hv. by apply reifyDates_row_lookup_own.
  - intros Hnone Hproto.
    by apply reifyDates_row_lookup_inherited.
  - intros Hnone. split.
    + by apply reifyDates_row_lookup_proto.
    + by apply reifyDates_row_prototype.
Qed.

(** A row with an [id] and without a [day], and DATE columns named [day] and
    [__proto__]: the loop adds the property [day], holding an invalid date,
    leaves [id], adds no property [__proto__] and makes the prototype of
    the row a date. *)
Lemma reifyDates_by_name_witness :
  let mappedRow :=
    {| properties := {[ "id" := JsString "1" ]};
       prototype := Object_prototype |} in
  let output :=
    {| rows := [mappedRow];
       columnTypes :=
         [{| name := "id"; evidenceType := NUMBER; typeFidelity := PRECISE |};
          {| name := "day"; evidenceType := DATE; typeFidelity := PRECISE |};
          {| name := "__proto__"; evidenceType := DATE;
             typeFidelity := PRECISE |}];
       expectedRowCount := 1 |} in
  exists final,
    rows (reifyDates output) !! 0%nat = Some final
    /\ final !! "id" = Some (JsString "1")
    /\ final !! "day" = Some (JsDate NaN)
    /\ final !! "__proto__" = None
    /\ prototype final = Date_object (Date_parse "[object Object]").
Proof.
  intros mappedRow output.
  destruct (reifyDates_by_name output 0%nat mappedRow "id" eq_refl)
    as (_ & final & Hfinal & Hid & _ & Hproto).
  exists final. split; [exact Hfinal |].
  split; [exact (Hid (JsString "1") eq_refl) |].
  split; [| exact (Hproto eq_refl)].
  cbv zeta in Hfinal. cbn in Hfinal. injection Hfinal as <-. reflexivity.
Defined.

Lemma set_property_same (row : RowObject) (key : string) (v : JsValue) :
  row !! key = Some v -> set_property row key v = row.
Proof.
  intros Hv. unfold set_property. rewrite lookup_RowObject in Hv.
  rewrite Hv. destruct row as [props proto]. cbn in *.
  f_equal. by apply insert_id.
Qed.

(** On a settled name, the assignment of the date loop changes nothing. *)
Lemma set_property_settled (row : RowObject) (key : string) :
  settled row key ->
  set_property row key (new_Date_of (get_property row key)) = row.
Proof.
  intros [[t Ht] | (-> & Hnone & t & Ht)].
  - rewrite (get_property_own _ _ _ Ht). cbn. by apply set_property_same.
  - rewrite (get_property_inherited _ _ Hnone), Ht. cbn.
    unfold set_property. rewrite lookup_RowObject in Hnone. rewrite Hnone.
    cbn. destruct row as [props proto]. cbn in *. by rewrite Ht.
Qed.

Lemma reifyDates_row_fixed (columnTypes : list ColumnType) (row : RowObject) :
  Forall (fun column => is_date column = true -> settled row (name column))
    columnTypes ->
  reifyDates_row columnTypes row = row.
Proof.
  induction 1 as [| column columnTypes Hcolumn _ IH].
  - done.
  - rewrite reifyDates_row_cons.
    destruct (is_date column); [| done].
    by rewrite set_property_settled by auto.
Qed.

(** The date loop settles the name of every date column. *)
Lemma reifyDates_row_settles (columnTypes : list ColumnType) (row : RowObject)
    (column : ColumnType) :
  column ∈ columnTypes ->
  is_date column = true ->
  settled (reifyDates_row columnTypes row) (name column).
Proof.
  intros Hin Hdate.
  assert (date_named columnTypes (name column) = true) as Hnamed.
  { apply date_named_spec. exists column. by rewrite <- is_date_DATE. }
  destruct (row !! name column) as [v |] eqn:Hv.
  - left. rewrite (reifyDates_row_lookup_own _ _ _ _ Hv), Hnamed.
    destruct (new_Date_is_date v) as [t ->]. eauto.
  - destruct (decide (name column = "__proto__")) as [Hproto | Hproto].
    + right. rewrite Hproto in *. split; [done |]. split.
      * by apply reifyDates_row_lookup_proto.
      * rewrite reifyDates_row_prototype, Hnamed by done. eauto.
    + left.
      pose proof (reifyDates_row_lookup_inherited columnTypes row _ Hv Hproto)
        as Hlookup.
      rewrite Hnamed in Hlookup. destruct Hlookup as (p & Hp & _).
      destruct (new_Date_of_is_date (Inherited p (name column))) as [t Ht].
      exists t. by rewrite Hp, Ht.
Qed.

Lemma reifyDates_row_idempotent (columnTypes : list ColumnType)
    (row : RowObject) :
  reifyDates_row columnTypes (reifyDates_row columnTypes row)
  = reifyDates_row columnTypes row.
Proof.
  apply reifyDates_row_fixed, Forall_forall. intros column Hin Hdate.
  by apply reifyDates_row_settles.
Qed.

(** X4. The date loop is idempotent and keeps the shape of the output:
    running it on its own result changes nothing (the date made from a date
    is that date), and it changes neither the number of rows, nor the column
    types, nor [expectedRowCount]. *)
Theorem reifyDates_idempotent (output : MappedOutput) :
  reifyDates (reifyDates output) = reifyDates output
  /\ length (rows (reifyDates output)) = length (rows output)
  /\ columnTypes (reifyDates output) = columnTypes output
  /\ expectedRowCount (reifyDates output) = expectedRowCount output.
Proof.
  split; [| split; [| done]].
  - unfold reifyDates. cbn [rows columnTypes expectedRowCount]. f_equal.
    rewrite List.map_map. apply List.map_ext. intros row.
    apply reifyDates_row_idempotent.
  - unfold reifyDates. cbn [rows]. apply List.length_map.
Qed.

(** The value a formatted row holds under the name of a column that no
    other column shares and that is not [__proto__]: that of the cell in the
    column's position, if the raw row has one. *)
Lemma mapRow_unique_column columns row mappedRow i column :
  mapRow columns row = inr mappedRow ->
  columns !! i = Some column ->
  (forall j column',
     columns !! j = Some column' -> j <> i -> Name column' <> Name column) ->
  Name column <> "__proto__" ->
  mappedRow !! Name column = value_of_Datum <$> Data row !! i.
Proof.
  intros Hmap Hcol Honly Hproto. apply mapRow_inr in Hmap as [Hle ->].
  destruct (Data row !! i) as [d |] eqn:Hd; cbn.
  - apply (assign_all_lookup_last _ _ i).
    + apply lookup_zip_with_Some. eauto.
    + done.
    + intros j [column' d'] Hlt Hj.
      apply lookup_zip_with_Some in Hj as (? & ? & [= <- <-] & Hc' & Hd').
      cbn. apply (Honly j); [done | lia].
  - rewrite assign_all_lookup_other; [done |].
    apply Forall_lookup_2. intros j [column' d'] Hj.
    apply lookup_zip_with_Some in Hj as (? & ? & [= <- <-] & Hc' & Hd').
    cbn. apply (Honly j); [done |]. intros ->. congruence.
Qed.

(** Whether a date column carries that name. *)
Lemma date_named_unique_column columns i column :
  columns !! i = Some column ->
  (forall j column',
     columns !! j = Some column' -> j <> i -> Name column' <> Name column) ->
  date_named (List.map mapAthenaTypeToEvidenceType columns) (Name column)
  = is_date (mapAthenaTypeToEvidenceType column).
Proof.
  intros Hcol Honly. unfold date_named.
  rewrite (existsb_only _ _ i (mapAthenaTypeToEvidenceType column)).
  - cbn [name mapAthenaTypeToEvidenceType]. by rewrite String.eqb_refl.
  - by rewrite lookup_List_map, Hcol.
  - intros j y Hj Hne. rewrite lookup_List_map in Hj.
    destruct (columns !! j) as [column' |] eqn:Hcol'; [| discriminate].
    injection Hj as <-. cbn [name mapAthenaTypeToEvidenceType].
    apply andb_false_iff. left. apply String.eqb_neq. eauto.
Qed.

(** A name that is not that of a built-in reads as [undefined] in a row that
    does not have it and whose prototype is [Object.prototype]. *)
Lemma new_Date_of_undefined (key : string) :
  key ∉ Object_prototype_properties ->
  new_Date_of (Inherited Object_prototype key) = JsDate NaN.
Proof.
  intros Hkey. unfold new_Date_of.
  assert (existsb (String.eqb key) Object_prototype_properties = false) as Hno.
  { destruct (existsb _ _) eqn:Hex; [| done].
    apply existsb_exists in Hex as (builtin & Hin & Heq).
    apply String.eqb_eq in Heq as <-. by apply list_elem_of_In in Hin. }
  rewrite Hno.
  destruct (String.eqb_spec key "__proto__") as [-> | _]; [| done].
  vm_compute in Hno. discriminate.
Qed.

Lemma is_date_cases (column : ColumnType) :
  (is_date column = true /\ evidenceType column = DATE)
  \/ (is_date column = false /\ evidenceType column <> DATE).
Proof.
  unfold is_date. destruct (evidenceType column); cbn; auto.
Qed.

(** X5. Null and missing cells, for a column whose name no other column
    shares and is not [__proto__]. A null cell (one without [VarCharValue])
    is stored as [undefined]; after the date loop of the runner a DATE
    column holds an invalid date for it, and a column of another type is
    left with [undefined]. A row too short to have a cell for the column
    gets no property for it; after the date loop a column of another type
    is still without the property, and a DATE column holds the date made
    from what the row inherits under that name: an invalid date, unless the
    name is that of a built-in of [Object.prototype] or a DATE column is
    named [__proto__]. *)
Theorem reifyDates_null_or_missing_cell (all_rows : list Row)
    (metadata : ResultSetMetadata_t) (output : MappedOutput) (k : nat)
    (row : Row) (i : nat) (column : ColumnInfo_t) :
  mapQueryResults
    {| qr_rows := all_rows; qr_resultSetMetadata := Some metadata |}
  = inr output ->
  all_rows !! S k = Some row ->
  ColumnInfo metadata !! i = Some column ->
  (forall j column',
     ColumnInfo metadata !! j = Some column' -> j <> i ->
     Name column' <> Name column) ->
  Name column <> "__proto__" ->
  exists mappedRow final,
    rows output !! k = Some mappedRow
    /\ rows (reifyDates output) !! k = Some final
    /\ (Data row !! i = Some {| VarCharValue := None |} ->
        mappedRow !! Name column = Some undefined
        /\ final !! Name column
           = Some (match evidenceType (mapAthenaTypeToEvidenceType column) with
                   | DATE => JsDate NaN
                   | _ => undefined
                   end))
    /\ (Data row !! i = None ->
        mappedRow !! Name column = None
        /\ match evidenceType (mapAthenaTypeToEvidenceType column) with
           | DATE =>
               (exists p,
                  final !! Name column
                  = Some (new_Date_of (Inherited p (Name column)))
                  /\ (date_named (columnTypes output) "__proto__" = false ->
                      p = Object_prototype))
               /\ (date_named (columnTypes output) "__proto__" = false ->
                   Name column ∉ Object_prototype_properties ->
                   final !! Name column = Some (JsDate NaN))
           | _ => final !! Name column = None
           end).
Proof.
  intros Hout Hrow Hcol Honly Hproto.
  apply mapQueryResults_inr in Hout as (Hrows & Htypes & _).
  assert (drop 1 all_rows !! k = Some row) as Hk by by rewrite lookup_drop.
  destruct (Forall2_lookup_l _ _ _ _ _ Hrows Hk) as (mappedRow & Hmapped & Hmap).
  pose proof (mapRow_unique_column _ _ _ _ _ Hmap Hcol Honly Hproto) as Hvalue.
  pose proof (date_named_unique_column _ _ _ Hcol Honly) as Hnamed.
  assert (prototype mappedRow = Object_prototype) as Hprototype.
  { apply mapRow_inr in Hmap as [_ ->]. by rewrite assign_all_prototype. }
  exists mappedRow, (reifyDates_row (columnTypes output) mappedRow).
  split; [done |]. split.
  { unfold reifyDates. cbn [rows]. by rewrite lookup_List_map, Hmapped. }
  rewrite Htypes. split; intros Hcell; rewrite Hcell in Hvalue; cbn in Hvalue;
    (split; [done |]).
  - rewrite (reifyDates_row_lookup_own _ _ _ _ Hvalue), Hnamed.
    destruct (is_date_cases (mapAthenaTypeToEvidenceType column))
      as [[-> ->] | [-> Hother]]; [done |].
    by destruct (evidenceType (mapAthenaTypeToEvidenceType column)).
  - pose proof (reifyDates_row_lookup_inherited
                  (List.map mapAthenaTypeToEvidenceType (ColumnInfo metadata))
                  mappedRow _ Hvalue Hproto) as Hlookup.
    rewrite Hnamed, Hprototype in Hlookup.
    destruct (is_date_cases (mapAthenaTypeToEvidenceType column))
      as [[Hdate Htype] | [Hdate Hother]]; rewrite Hdate in Hlookup.
    + rewrite Htype. split; [exact Hlookup |].
      intros Hno Hkey. destruct Hlookup as (p & Hp & Hfirst).
      by rewrite Hp, (Hfirst Hno), new_Date_of_undefined.
    + by destruct (evidenceType (mapAthenaTypeToEvidenceType column)).
Qed.

(** A null day in a full row, and a row too short to have a day. *)
Lemma reifyDates_null_or_missing_cell_witness :
  let metadata :=
    {| ColumnInfo := [{| Name := "id"; Type_ := "integer" |};
                      {| Name := "day"; Type_ := "date" |}] |} in
  let header :=
    {| Data := [{| VarCharValue := Some "id" |};
                {| VarCharValue := Some "day" |}] |} in
  let null_day :=
    {| Data := [{| VarCharValue := Some "1" |}; {| VarCharValue := None |}] |} in
  let short := {| Data := [{| VarCharValue := Some "2" |}] |} in
  exists output final1 final2,
    mapQueryResults
      {| qr_rows := [header; null_day; short];
         qr_resultSetMetadata := Some metadata |}
    = inr output
    /\ rows (reifyDates output) !! 0%nat = Some final1
    /\ final1 !! "day" = Some (JsDate NaN)
    /\ rows (reifyDates output) !! 1%nat = Some final2
    /\ final2 !! "day" = Some (JsDate NaN).
Proof.
  intros metadata header null_day short.
  eexists.
  assert (mapQueryResults
            {| qr_rows := [header; null_day; short];
               qr_resultSetMetadata := Some metadata |} = inr _) as Hout
    by reflexivity.
  assert (forall j column',
             ColumnInfo metadata !! j = Some column' -> j <> 1%nat ->
             Name column' <> "day") as Honly.
  { intros [| [| j]] column' Hj Hne; cbn in Hj; try done.
    by injection Hj as <-. }
  assert ("day" <> "__proto__") as Hproto by discriminate.
  destruct (reifyDates_null_or_missing_cell [header; null_day; short] metadata
              _ 0%nat null_day 1%nat {| Name := "day"; Type_ := "date" |}
              Hout eq_refl eq_refl Honly Hproto)
    as (mapped1 & final1 & _ & Hfinal1 & Hnull & _).
  destruct (reifyDates_null_or_missing_cell [header; null_day; short] metadata
              _ 1%nat short 1%nat {| Name := "day"; Type_ := "date" |}
              Hout eq_refl eq_refl Honly Hproto)
    as (mapped2 & final2 & _ & Hfinal2 & _ & Hmissing).
  exists final1, final2. split; [exact Hout |].
  split; [exact Hfinal1 |]. split; [apply (Hnull eq_refl) |].
  split; [exact Hfinal2 |].
  destruct (Hmissing eq_refl) as (_ & _ & Hinvalid).
  apply (Hinvalid eq_refl). unfold Object_prototype_properties.
  intros Hin. repeat (apply elem_of_cons in Hin as [Hin | Hin]; [done |]).
  by apply elem_of_nil in Hin.
Defined.

(** ** The poller and the paginator against any scripted service *)

Lemma poll_script_run (client : AthenaClient) (id : string) :
  forall (s : Service),
    run_stub (waitForQueryCompletion client id) s
    ≈ Ret (after_polling client id (fst (fst (poll_script id (executions s))))
             (snd (fst (poll_script id (executions s)))) s,
           snd (poll_script id (executions s))).
Proof.
  intros s. remember (executions s) as script eqn:Hs. symmetry in Hs.
  revert s Hs. induction script as [| answer script IH]; intros s Hs.
  - unfold waitForQueryCompletion. rewrite unfold_iter.
    unfold waitForQueryCompletion_body at 1.
    run_event. rewrite Hs. cbn. rewrite bind_ret_l, run_stub_ret.
    apply eqit_Ret. unfold after_polling. cbn. by rewrite Z.add_0_r.
  - destruct answer as [e | result].
    + rewrite (poll_rejected client id s e script Hs).
      apply eqit_Ret. unfold after_polling, polled. cbn. by rewrite Z.add_0_r.
    + cbn [poll_script].
      destruct (pending (State (Status (QueryExecution result)))) eqn:Hp.
      * rewrite (poll_pending client id s result script Hs Hp).
        rewrite (IH (waited 5000 (polled client id script s)) eq_refl).
        destruct (poll_script id script) as [[k rest] outcome]. cbn.
        apply eqit_Ret. unfold after_polling, waited, polled. cbn.
        rewrite <- app_assoc. cbn. do 2 f_equal. lia.
      * cbn. unfold pending in Hp. apply negb_false_iff in Hp.
        destruct (String.eqb_spec (State (Status (QueryExecution result)))
                    "SUCCEEDED") as [Hok | Hne].
        -- rewrite (poll_succeeded client id s result script Hs Hok).
           apply eqit_Ret. unfold after_polling, polled. cbn.
           by rewrite Z.add_0_r.
        -- cbn in Hp. apply orb_true_iff in Hp.
           rewrite (poll_failed client id s result script Hs).
           ++ apply eqit_Ret. unfold after_polling, polled. cbn.
              by rewrite Z.add_0_r.
           ++ destruct Hp as [Hp | Hp]; apply String.eqb_eq in Hp; auto.
Qed.

(** The answers the poller takes: pending ones, each followed by a wait,
    then one that ends it. *)
Lemma poll_script_spec (id : string) :
  forall script : list (JsError + GetQueryExecutionOutput),
    let k := fst (fst (poll_script id script)) in
    snd (fst (poll_script id script)) = drop (S k) script
    /\ (forall j, (j < k)%nat ->
          exists result,
            script !! j = Some (inr result)
            /\ pending (State (Status (QueryExecution result))) = true)
    /\ match script !! k with
       | None => snd (poll_script id script) = inl script_exhausted
       | Some answer =>
           snd (poll_script id script) = poll_outcome id answer
           /\ forall result,
                answer = inr result ->
                pending (State (Status (QueryExecution result))) = false
       end.
Proof.
  induction script as [| answer script IH]; cbn zeta.
  - cbn. split; [done |]. split; [intros j Hj; lia | done].
  - destruct answer as [e | result]; cbn [poll_script].
    + cbn. split; [done |]. split; [intros j Hj; lia |].
      split; [done | discriminate].
    + destruct (pending (State (Status (QueryExecution result)))) eqn:Hp.
      * cbn zeta in IH. destruct (poll_script id script) as [[k rest] outcome].
        cbn in *. destruct IH as (Hrest & Hbefore & Hlast).
        split; [done |]. split; [| done].
        intros [| j] Hj; cbn; [eauto |]. apply Hbefore. lia.
      * cbn. split; [done |]. split; [intros j Hj; lia |].
        split; [done |]. by intros ? [= <-].
Qed.

Lemma page_script_run (client : AthenaClient) (id : string) :
  forall (script : list (JsError + GetQueryResultsOutput)) (st : PageLoop)
         (s : Service),
    pages s = script ->
    run_stub (ITree.iter (getQueryResults_body client id) st) s
    ≈ Ret (after_requests client id (fst (fst (page_script script st)))
             (snd (fst (page_script script st))) s,
           snd (page_script script st)).
Proof.
  induction script as [| answer script IH]; intros st s Hs.
  - rewrite unfold_iter. unfold getQueryResults_body at 1.
    run_event. rewrite Hs. cbn. rewrite bind_ret_l, run_stub_ret.
    reflexivity.
  - destruct answer as [e | response].
    + rewrite unfold_iter. unfold getQueryResults_body at 1.
      run_event. rewrite Hs. cbn. rewrite bind_ret_l, run_stub_ret.
      reflexivity.
    + rewrite unfold_iter. unfold getQueryResults_body at 1.
      run_event. rewrite Hs. cbn [page_script]. cbn.
      destruct (truthy (NextToken response)) eqn:Htoken.
      * rewrite bind_ret_l, run_stub_tau. rewrite IH by reflexivity.
        fold (next_param st). unfold page_metadata, page_rows.
        replace (match resultSetMetadata st with
                 | Some metadata => Some metadata
                 | None => Some (ResultSetMetadata (ResultSet response))
                 end)
          with (Some (default (ResultSetMetadata (ResultSet response))
                        (resultSetMetadata st)))
          by by destruct (resultSetMetadata st).
        destruct (page_script script _) as [[tokens rest] outcome]. cbn.
        apply eqit_Ret. unfold after_requests. cbn.
        by rewrite <- app_assoc.
      * rewrite bind_ret_l, run_stub_ret. apply eqit_Ret.
        unfold after_requests, page_metadata, page_rows. cbn.
        by destruct (resultSetMetadata st).
Qed.

(** The paginator sends at least one request, and one request for each
    page or rejection it takes from the service. *)
Lemma page_script_spec :
  forall (script : list (JsError + GetQueryResultsOutput)) (st : PageLoop),
    fst (fst (page_script script st)) <> []
    /\ snd (fst (page_script script st))
       = drop (length (fst (fst (page_script script st)))) script.
Proof.
  induction script as [| answer script IH]; intros st.
  - done.
  - destruct answer as [e | response]; [done |]. cbn [page_script]. cbn zeta.
    destruct (truthy (NextToken response)); [| done].
    match goal with
    | |- context [page_script script ?st'] =>
        destruct (IH st') as [_ Hrest];
        destruct (page_script script st') as [[tokens rest] outcome]
    end.
    cbn in *. done.
Qed.

Lemma page_script_rejected (more : list GetQueryResultsOutput) :
  forall (e : JsError) rest (st : PageLoop),
    Forall (fun page => truthy (NextToken page) = true) more ->
    page_script (List.map inr more ++ inl e :: rest) st
    = (next_param st :: List.map NextToken more, rest, inl e).
Proof.
  induction more as [| page more IH]; intros e rest st Hmore.
  - reflexivity.
  - inversion Hmore as [| ? ? Hpage Hmore']; subst.
    cbn [List.map app page_script]. cbn zeta. rewrite Hpage.
    rewrite (IH e rest) by done. unfold next_param at 2. cbn. by rewrite Hpage.
Qed.

(** ** Rejections in the poller and in the paginator *)

(** X6. A rejected status check ends the poller with the service's error,
    unchanged: after any number of statuses the poller goes on polling on,
    each followed by its wait, the rejection is thrown out of the poller
    with no further wait, no retry and no further check. *)
Theorem waitForQueryCompletion_rejected (client : AthenaClient) (id : string)
    (states : list string) (e : JsError) (s : Service)
    (rest : list (JsError + GetQueryExecutionOutput)) :
  Forall (fun state => state <> "SUCCEEDED" /\ state <> "FAILED"
                       /\ state <> "CANCELLED") states ->
  executions s
  = (List.map (fun state => inr (execution_in state)) states
     ++ inl e :: rest)%list ->
  run_stub (waitForQueryCompletion client id) s
  ≈ Ret (after_polling client id (length states) rest s, inl e).
Proof.
  intros Hpending Hs.
  rewrite (poll_all_pending client id states s (inl e :: rest)); [| | exact Hs].
  2: { eapply Forall_impl; [exact Hpending |]. intros state H.
       by apply pending_true. }
  match goal with
  | |- run_stub _ ?s1 ≈ _ => set (s' := s1)
  end.
  rewrite (poll_rejected client id s' e rest eq_refl).
  apply eqit_Ret. unfold after_polling, polled, s'.
  cbn [submissions executions pages received elapsed console].
  by rewrite replicate_S_end, app_assoc.
Qed.

(** RUNNING, then a throttling error: two checks, one wait, that error. *)
Lemma waitForQueryCompletion_rejected_witness :
  let client := {| region := "us-east-1"; credentials := fromIni "reports" |} in
  let error := ServiceException "ThrottlingException" "Rate exceeded" in
  run_stub (waitForQueryCompletion client "q-1")
    {| submissions := [];
       executions := [inr (execution_in "RUNNING"); inl error;
                      inr (execution_in "SUCCEEDED")];
       pages := []; received := []; elapsed := 0; console := [] |}
  ≈ Ret ({| submissions := [];
            executions := [inr (execution_in "SUCCEEDED")];
            pages := [];
            received := [(client, Request_GetQueryExecution "q-1");
                         (client, Request_GetQueryExecution "q-1")];
            elapsed := 5000; console := [] |},
         inl error).
Proof.
  intros client error.
  apply (waitForQueryCompletion_rejected client "q-1" ["RUNNING"] error
           {| submissions := [];
              executions := [inr (execution_in "RUNNING"); inl error;
                             inr (execution_in "SUCCEEDED")];
              pages := []; received := []; elapsed := 0; console := [] |}
           [inr (execution_in "SUCCEEDED")]).
  - repeat constructor; discriminate.
  - reflexivity.
Defined.

(** X7. A rejected page request ends the paginator with the service's
    error: the rows of the pages fetched before are dropped with the loop,
    no partial result is returned, and no further page is requested. *)
Theorem getQueryResults_rejected (client : AthenaClient) (id : string)
    (more : list GetQueryResultsOutput) (e : JsError)
    (rest : list (JsError + GetQueryResultsOutput)) (s : Service) :
  Forall (fun page => truthy (NextToken page) = true) more ->
  pages s = (List.map inr more ++ inl e :: rest)%list ->
  run_stub (getQueryResults client id) s
  ≈ Ret (after_paging client id None more rest s, inl e).
Proof.
  intros Hmore Hs. unfold getQueryResults.
  rewrite (page_script_run client id _ _ s Hs).
  rewrite (page_script_rejected more e rest _ Hmore). reflexivity.
Qed.

(** One page of two rows with a token, then a rejection: two requests, the
    error, and the page after it left with the service. *)
Lemma getQueryResults_rejected_witness :
  let client := {| region := "us-east-1"; credentials := fromIni "reports" |} in
  let metadata := {| ColumnInfo := [{| Name := "id"; Type_ := "integer" |}] |} in
  let cell s := {| Data := [{| VarCharValue := Some s |}] |} in
  let page rows token :=
    {| ResultSet := {| Rows := rows; ResultSetMetadata := metadata |};
       NextToken := token |} in
  let error := ServiceException "InternalServerException" "try again" in
  run_stub (getQueryResults client "q-1")
    {| submissions := []; executions := [];
       pages := [inr (page [cell "id"; cell "1"] (Some "t2")); inl error;
                 inr (page [cell "2"] None)];
       received := []; elapsed := 0; console := [] |}
  ≈ Ret ({| submissions := []; executions := [];
            pages := [inr (page [cell "2"] None)];
            received := [(client, Request_GetQueryResults "q-1" None);
                         (client, Request_GetQueryResults "q-1" (Some "t2"))];
            elapsed := 0; console := [] |},
         inl error).
Proof.
  intros client metadata cell page error.
  apply (getQueryResults_rejected client "q-1"
           [page [cell "id"; cell "1"] (Some "t2")] error
           [inr (page [cell "2"] None)]
           {| submissions := []; executions := [];
              pages := [inr (page [cell "id"; cell "1"] (Some "t2"));
                        inl error; inr (page [cell "2"] None)];
              received := []; elapsed := 0; console := [] |}).
  - repeat constructor.
  - reflexivity.
Defined.

(** ** The runner against any scripted service *)

Lemma runner_try_submission_exhausted (client : AthenaClient)
    (options : ConnectorOptions) (queryText : string) (s : Service) :
  submissions s = [] ->
  run_stub (runner_try client options queryText) s
  ≈ Ret (submitted client (runner_params options queryText) [] s,
         inl script_exhausted).
Proof.
  intros Hs. unfold runner_try. cbn zeta. apply run_await_inl.
  rewrite run_stub_trigger. cbn. rewrite Hs. reflexivity.
Qed.

Lemma runner_try_script_run (client : AthenaClient)
    (options : ConnectorOptions) (queryText : string) (s : Service) :
  run_stub (runner_try client options queryText) s
  ≈ Ret (runner_try_script client options queryText s).
Proof.
  unfold runner_try_script.
  destruct (submissions s) as [| [e | response] rest] eqn:Hs; cbn.
  - by apply runner_try_submission_exhausted.
  - by apply runner_try_submission_rejected.
  - set (s1 := submitted client (runner_params options queryText) rest s).
    pose proof (poll_script_run client (QueryExecutionId response) s1) as Hwait.
    change (executions s1) with (executions s) in Hwait.
    destruct (poll_script (QueryExecutionId response) (executions s))
      as [[k rest_e] [e | []]]; cbn in Hwait.
    + by apply (runner_try_polling_failed _ _ _ _ rest response).
    + set (s2 := after_polling client (QueryExecutionId response) k rest_e s1)
        in *.
      pose proof (page_script_run client (QueryExecutionId response) (pages s)
                    first_page_state s2 eq_refl) as Hpages.
      fold (getQueryResults client (QueryExecutionId response)) in Hpages.
      destruct (page_script (pages s) first_page_state)
        as [[tokens rest_p] [e | queryResults]]; cbn in Hpages.
      * by apply (runner_try_paging_failed _ _ _ _ rest response Hs s2).
      * by apply (runner_try_mapped _ _ _ _ rest response Hs s2).
Qed.

Lemma getRunner_script_run (client : AthenaClient) (options : ConnectorOptions)
    (queryText queryPath : string) (s : Service) :
  run_stub (getRunner client options queryText queryPath) s
  ≈ Ret (match snd (runner_try_script client options queryText s) with
         | inl e =>
             (logged e (fst (runner_try_script client options queryText s)),
              inr None)
         | inr output =>
             (fst (runner_try_script client options queryText s),
              inr (Some output))
         end).
Proof.
  pose proof (runner_try_script_run client options queryText s) as Htry.
  destruct (runner_try_script client options queryText s) as [s' [e | output]];
    cbn.
  - by apply run_getRunner_caught.
  - by apply run_getRunner_returned.
Qed.

Lemma runner_try_script_console (client : AthenaClient)
    (options : ConnectorOptions) (queryText : string) (s : Service) :
  console (fst (runner_try_script client options queryText s)) = console s.
Proof.
  unfold runner_try_script.
  destruct (next_answer (submissions s)) as [[e | response] rest]; [done |].
  destruct (poll_script _ _) as [[k rest_e] [e | []]]; [done |].
  destruct (page_script _ _) as [[tokens rest_p] [e | queryResults]]; done.
Qed.

(** X8. Against a scripted service, whatever it has scripted, the [try]
    block of the runner terminates, writing nothing to the console, and the
    runner terminates fulfilled. If the [try] block threw an error, the
    runner returns [undefined] after writing exactly one entry to the
    console: that error, under the label of the runner; nothing else of the
    service is touched by the handler. If the [try] block returned an
    output, the runner returns that output and writes nothing. So the runner
    writes to the console exactly when it returns [undefined]. *)
Theorem getRunner_logs_iff_undefined (client : AthenaClient)
    (options : ConnectorOptions) (queryText queryPath : string) (s : Service) :
  exists (s_try : Service) (outcome : JsError + MappedOutput)
         (s' : Service) (result : option MappedOutput),
    run_stub (runner_try client options queryText) s ≈ Ret (s_try, outcome)
    /\ console s_try = console s
    /\ run_stub (getRunner client options queryText queryPath) s
       ≈ Ret (s', inr result)
    /\ match outcome with
       | inl e =>
           result = None
           /\ s' = logged e s_try
           /\ console s' = (console s ++ [("Error executing query:", e)])%list
       | inr output =>
           result = Some output
           /\ s' = s_try
           /\ console s' = console s
       end.
Proof.
  pose proof (runner_try_script_run client options queryText s) as Htry.
  pose proof (getRunner_script_run client options queryText queryPath s) as Hrun.
  pose proof (runner_try_script_console client options queryText s) as Hconsole.
  destruct (runner_try_script client options queryText s)
    as [s_try [e | output]]; cbn in *.
  - exists s_try, (inl e), (logged e s_try), None.
    split; [exact Htry |]. split; [exact Hconsole |]. split; [exact Hrun |].
    split; [done |]. split; [done |]. cbn. by rewrite Hconsole.
  - exists s_try, (inr output), s_try, (Some output). done.
Qed.

(** The requests of the [try] block of the runner against a scripted
    service. *)
Lemma runner_try_script_requests (client : AthenaClient)
    (options : ConnectorOptions) (queryText : string) (s : Service) :
  let s' := fst (runner_try_script client options queryText s) in
  let outcome := snd (runner_try_script client options queryText s) in
  exists (id : string) (checks : nat) (tokens : list (option string)),
    received s'
    = (received s
       ++ (client,
           Request_StartQueryExecution (runner_params options queryText))
       :: replicate checks (client, Request_GetQueryExecution id)
       ++ List.map (fun token => (client, Request_GetQueryResults id token))
            tokens)%list
    /\ (checks <> 0%nat ->
        exists response rest,
          submissions s = inr response :: rest
          /\ id = QueryExecutionId response)
    /\ (tokens <> [] ->
        (1 <= checks)%nat
        /\ exists r,
             executions s !! (checks - 1)%nat = Some (inr r)
             /\ State (Status (QueryExecution r)) = "SUCCEEDED")
    /\ ((exists output, outcome = inr output) -> tokens <> [])
    /\ submissions s' = drop 1 (submissions s)
    /\ executions s' = drop checks (executions s)
    /\ pages s' = drop (length tokens) (pages s).
Proof.
  unfold runner_try_script.
  destruct (submissions s) as [| [e | response] rest] eqn:Hs; cbn.
  - exists "", 0%nat, []. cbn. repeat split; try done. by intros [? ?].
  - exists "", 0%nat, []. cbn. repeat split; try done. by intros [? ?].
  - pose proof (poll_script_spec (QueryExecutionId response) (executions s))
      as (Hrest_e & _ & Hlast).
    destruct (poll_script (QueryExecutionId response) (executions s))
      as [[k rest_e] polled]. cbn in Hrest_e, Hlast.
    destruct polled as [e | []].
    + exists (QueryExecutionId response), (S k), []. cbn.
      rewrite app_nil_r, <- app_assoc.
      repeat split; try done; [eauto | by intros [? ?]].
    + assert (exists r, executions s !! k = Some (inr r)
                        /\ State (Status (QueryExecution r)) = "SUCCEEDED")
        as Hsucceeded.
      { destruct (executions s !! k) as [[e | r] |]; try discriminate.
        - by destruct Hlast.
        - exists r. split; [done |]. destruct Hlast as [Hlast _].
          cbn in Hlast. apply String.eqb_eq.
          by destruct (String.eqb _ "SUCCEEDED"). }
      pose proof (page_script_spec (pages s) first_page_state)
        as [Htokens Hrest_p].
      destruct (page_script (pages s) first_page_state)
        as [[tokens rest_p] paged]. cbn in Htokens, Hrest_p.
      exists (QueryExecutionId response), (S k), tokens.
      destruct paged as [e | queryResults]; cbn;
        rewrite <- !app_assoc; cbn; rewrite Nat.sub_0_r;
        repeat split; eauto; lia.
Qed.

(** X9. Against a scripted service, whatever it has scripted, every request
    of a run comes from the module's client, in this order: one submission,
    carrying the query text and the options; then status checks only, for
    the identifier the submission returned; then page requests only, for
    that identifier. There is a status check only if the submission was
    accepted, a page request only if the last status check reported
    SUCCEEDED, and an output only if a page was requested. The run takes one
    scripted answer per request and leaves the others. *)
Theorem getRunner_requests (client : AthenaClient) (options : ConnectorOptions)
    (queryText queryPath : string) (s : Service) :
  exists (s' : Service) (result : option MappedOutput) (id : string)
         (checks : nat) (tokens : list (option string)),
    run_stub (getRunner client options queryText queryPath) s
    ≈ Ret (s', inr result)
    /\ received s'
       = (received s
          ++ (client,
              Request_StartQueryExecution (runner_params options queryText))
          :: replicate checks (client, Request_GetQueryExecution id)
          ++ List.map (fun token => (client, Request_GetQueryResults id token))
               tokens)%list
    /\ (checks <> 0%nat ->
        exists response rest,
          submissions s = inr response :: rest
          /\ id = QueryExecutionId response)
    /\ (tokens <> [] ->
        (1 <= checks)%nat
        /\ exists r,
             executions s !! (checks - 1)%nat = Some (inr r)
             /\ State (Status (QueryExecution r)) = "SUCCEEDED")
    /\ (is_Some result -> tokens <> [])
    /\ submissions s' = drop 1 (submissions s)
    /\ executions s' = drop checks (executions s)
    /\ pages s' = drop (length tokens) (pages s).
Proof.
  pose proof (getRunner_script_run client options queryText queryPath s) as Hrun.
  destruct (runner_try_script_requests client options queryText s)
    as (id & checks & tokens & Hreceived & Hchecks & Htokens & Houtput
        & Hsubmissions & Hexecutions & Hpages).
  destruct (runner_try_script client options queryText s) as [s' [e | output]];
    cbn in *.
  - exists (logged e s'), None, id, checks, tokens.
    split; [exact Hrun |]. cbn. split_and!; done.
  - exists s', (Some output), id, checks, tokens.
    split; [exact Hrun |]. split_and!; try done. eauto.
Qed.

(** ** A query that succeeds *)

Lemma mapQueryResults_fits (all_rows : list Row) (metadata : ResultSetMetadata_t) :
  Forall (fun row => (length (Data row) <= length (ColumnInfo metadata))%nat)
    (drop 1 all_rows) ->
  exists output,
    mapQueryResults
      {| qr_rows := all_rows; qr_resultSetMetadata := Some metadata |}
    = inr output
    /\ length (rows output) = (length all_rows - 1)%nat
    /\ expectedRowCount output = (length all_rows - 1)%nat
    /\ columnTypes output
       = List.map mapAthenaTypeToEvidenceType (ColumnInfo metadata).
Proof.
  intros Hfit.
  destruct (map_throwing_all (mapRow (ColumnInfo metadata)) (drop 1 all_rows))
    as [mappedRows Hmap].
  { eapply Forall_impl; [exact Hfit |]. intros row Hle. cbn in Hle.
    eexists. by apply mapRow_fits. }
  eexists. unfold mapQueryResults. cbn [qr_rows qr_resultSetMetadata].
  rewrite Hmap. split; [reflexivity |]. cbn [rows columnTypes expectedRowCount].
  apply map_throwing_inr, Forall2_length in Hmap.
  rewrite <- Hmap, length_drop. done.
Qed.

(** X10. The stages compose: when the submission is accepted, the status
    checks report any number of statuses to go on polling on and then
    SUCCEEDED, the pages all carry a token but the last, and no row after
    the very first has more cells than the first page's metadata has
    columns, the runner returns an output and writes nothing to the
    console. The output is the formatter's, on the rows of all pages with
    the first page's metadata, after the date loop; it has one row for each
    fetched row but the first, and the time waited is 5000 milliseconds for
    each status before SUCCEEDED. *)
Theorem getRunner_success (client : AthenaClient) (options : ConnectorOptions)
    (queryText queryPath : string) (s : Service)
    (response : StartQueryExecutionOutput)
    (rest_s : list (JsError + StartQueryExecutionOutput))
    (states : list string) (rest_e : list (JsError + GetQueryExecutionOutput))
    (more : list GetQueryResultsOutput) (last : GetQueryResultsOutput)
    (rest_p : list (JsError + GetQueryResultsOutput)) :
  let all_rows := concat (List.map page_rows (more ++ [last])) in
  let metadata := page_metadata (hd last more) in
  submissions s = inr response :: rest_s ->
  Forall (fun state => state <> "SUCCEEDED" /\ state <> "FAILED"
                       /\ state <> "CANCELLED") states ->
  executions s
  = (List.map (fun state => inr (execution_in state)) states
     ++ inr (execution_in "SUCCEEDED") :: rest_e)%list ->
  Forall (fun page => truthy (NextToken page) = true) more ->
  truthy (NextToken last) = false ->
  pages s = (List.map inr more ++ inr last :: rest_p)%list ->
  Forall (fun row => (length (Data row) <= length (ColumnInfo metadata))%nat)
    (drop 1 all_rows) ->
  exists (s' : Service) (formatted : MappedOutput),
    run_stub (getRunner client options queryText queryPath) s
    ≈ Ret (s', inr (Some (reifyDates formatted)))
    /\ mapQueryResults
         {| qr_rows := all_rows; qr_resultSetMetadata := Some metadata |}
       = inr formatted
    /\ length (rows (reifyDates formatted)) = (length all_rows - 1)%nat
    /\ expectedRowCount (reifyDates formatted) = (length all_rows - 1)%nat
    /\ console s' = console s
    /\ elapsed s' = elapsed s + 5000 * Z.of_nat (length states).
Proof.
  intros all_rows metadata Hs Hstates He Hmore Hlast Hp Hfit.
  destruct (mapQueryResults_fits all_rows metadata Hfit)
    as (formatted & Hformatted & Hlength & Hcount & _).
  set (id := QueryExecutionId response).
  set (s1 := submitted client (runner_params options queryText) rest_s s).
  set (s2 := after_polling client id (length states) rest_e s1).
  set (s3 := after_paging client id None more rest_p s2).
  assert (run_stub (waitForQueryCompletion client id) s1 ≈ Ret (s2, inr tt))
    as Hwait.
  { apply (waitForQueryCompletion_run client id states "SUCCEEDED" s1 rest_e);
      [done | by left | done]. }
  pose proof (getQueryResults_run client id more last rest_p s2 Hmore Hlast Hp)
    as Hpages.
  exists s3, formatted. split.
  { apply run_getRunner_returned.
    rewrite (runner_try_mapped client options queryText s rest_s response Hs
               s2 s3 _ Hwait Hpages).
    fold all_rows metadata. by rewrite Hformatted. }
  split; [done |]. unfold reifyDates. cbn [rows expectedRowCount].
  rewrite List.length_map. done.
Qed.

(** A query polled twice and fetched in two pages of two rows and one row:
    two output rows, 5000 milliseconds waited. *)
Lemma getRunner_success_witness :
  let client := {| region := "us-east-1"; credentials := fromIni "reports" |} in
  let options :=
    {| database := "sales"; catalog := "AwsDataCatalog";
       outputBucket := "results"; testTableName := "orders" |} in
  let metadata :=
    {| ColumnInfo := [{| Name := "id"; Type_ := "integer" |};
                      {| Name := "day"; Type_ := "date" |}] |} in
  let cells a b :=
    {| Data := [{| VarCharValue := Some a |}; {| VarCharValue := Some b |}] |} in
  let page rows token :=
    {| ResultSet := {| Rows := rows; ResultSetMetadata := metadata |};
       NextToken := token |} in
  let page1 := page [cells "id" "day"; cells "1" "2024-01-15"] (Some "t2") in
  let page2 := page [cells "2" "2024-02-01"] None in
  let s :=
    {| submissions := [inr {| QueryExecutionId := "q-1" |}];
       executions := [inr (execution_in "RUNNING");
                      inr (execution_in "SUCCEEDED")];
       pages := [inr page1; inr page2];
       received := []; elapsed := 0; console := [] |} in
  exists (s' : Service) (formatted : MappedOutput),
    run_stub (getRunner client options "select id, day from orders"
                "queries/orders.sql") s
    ≈ Ret (s', inr (Some (reifyDates formatted)))
    /\ length (rows (reifyDates formatted)) = 2%nat
    /\ expectedRowCount (reifyDates formatted) = 2%nat
    /\ console s' = []
    /\ elapsed s' = 5000.
Proof.
  intros client options metadata cells page page1 page2 s.
  destruct (getRunner_success client options "select id, day from orders"
              "queries/orders.sql" s {| QueryExecutionId := "q-1" |} []
              ["RUNNING"] [] [page1] page2 [])
    as (s' & formatted & Hrun & _ & Hrows & Hcount & Hconsole & Helapsed).
  - reflexivity.
  - repeat constructor; discriminate.
  - reflexivity.
  - repeat constructor.
  - reflexivity.
  - reflexivity.
  - repeat constructor; cbn; lia.
  - exists s', formatted. done.
Defined.

(** ** Every output of the runner *)

(** An output of the [try] block is the formatter's output on some query
    results, after the date loop. *)
Lemma runner_try_leaf (client : AthenaClient) (options : ConnectorOptions)
    (queryText : string) (output : MappedOutput) :
  Leaf (inr output) (runner_try client options queryText) ->
  exists queryResults formatted,
    mapQueryResults queryResults = inr formatted
    /\ output = reifyDates formatted.
Proof.
  unfold runner_try, await_bind. cbn zeta. intros Hleaf.
  apply Leaf_bind_inv in Hleaf as ([e | response] & _ & Hleaf).
  { apply Leaf_Ret_inv in Hleaf. discriminate. }
  apply Leaf_bind_inv in Hleaf as ([e | []] & _ & Hleaf).
  { apply Leaf_Ret_inv in Hleaf. discriminate. }
  apply Leaf_bind_inv in Hleaf as ([e | queryResults] & _ & Hleaf).
  { apply Leaf_Ret_inv in Hleaf. discriminate. }
  destruct (mapQueryResults queryResults) as [e | formatted] eqn:Hmap;
    apply Leaf_Ret_inv in Hleaf; [discriminate |].
  injection Hleaf as ->. eauto.
Qed.

Lemma getRunner_leaf (client : AthenaClient) (options : ConnectorOptions)
    (queryText queryPath : string) (output : MappedOutput) :
  Leaf (inr (Some output)) (getRunner client options queryText queryPath) ->
  Leaf (inr output) (runner_try client options queryText).
Proof.
  unfold getRunner. intros Hleaf.
  apply Leaf_bind_inv in Hleaf as ([e | output'] & Htry & Hleaf).
  - apply Leaf_bind_inv in Hleaf as (u & _ & Hleaf).
    apply Leaf_Ret_inv in Hleaf. discriminate.
  - apply Leaf_Ret_inv in Hleaf. by injection Hleaf as ->.
Qed.

(** X11. Whatever the environment answers, every output the runner returns
    is well formed: [expectedRowCount] is the number of rows, every column
    type has PRECISE fidelity, and in every row a property of the row holds
    a date exactly when its name is that of a DATE column and is not
    [__proto__] (under such a name there is always a date, possibly invalid;
    under any other name never). No row has a property [__proto__] of its
    own; the prototype of a row is that of every object literal, unless a
    DATE column is named [__proto__], and then it is the date made from that
    prototype. *)
Theorem getRunner_output_invariants (client : AthenaClient)
    (options : ConnectorOptions) (queryText queryPath : string)
    (output : MappedOutput) :
  Leaf (inr (Some output)) (getRunner client options queryText queryPath) ->
  expectedRowCount output = length (rows output)
  /\ Forall (fun column => typeFidelity column = PRECISE) (columnTypes output)
  /\ forall row : RowObject,
       row ∈ rows output ->
       (forall key : string,
          (exists t, row !! key = Some (JsDate t))
          <-> key <> "__proto__"
              /\ exists column,
                   column ∈ columnTypes output /\ name column = key
                   /\ evidenceType column = DATE)
       /\ row !! "__proto__" = None
       /\ prototype row
          = if date_named (columnTypes output) "__proto__"
            then Date_object (Date_parse "[object Object]")
            else Object_prototype.
Proof.
  intros Hleaf. apply getRunner_leaf, runner_try_leaf in Hleaf
    as ([all_rows [metadata |]] & formatted & Hmap & ->); [| discriminate].
  apply mapQueryResults_inr in Hmap as (Hrows & Htypes & Hcount).
  split; [| split].
  - unfold reifyDates. cbn [rows expectedRowCount].
    by rewrite List.length_map.
  - cbn [reifyDates columnTypes]. rewrite Htypes.
    apply Forall_forall. intros column Hin.
    apply list_elem_of_In, in_map_iff in Hin as (c & <- & _). reflexivity.
  - intros row Hin. unfold reifyDates in Hin. cbn [rows] in Hin.
    apply list_elem_of_In, in_map_iff in Hin as (mappedRow & <- & Hin).
    cbn [reifyDates columnTypes].
    apply list_elem_of_In, list_elem_of_lookup in Hin as [k Hk].
    destruct (Forall2_lookup_r _ _ _ _ _ Hrows Hk) as (raw & _ & Hraw).
    apply mapRow_inr in Hraw as [_ Hraw].
    assert (mappedRow !! "__proto__" = None) as Hown
      by (rewrite Hraw; by apply assign_all_lookup_proto).
    assert (prototype mappedRow = Object_prototype) as Hprototype
      by (rewrite Hraw; by rewrite assign_all_prototype).
    assert (forall key v t, mappedRow !! key = Some v -> v <> JsDate t)
      as Hstrings.
    { intros key v t Hv ->. rewrite Hraw in Hv.
      apply assign_all_value in Hv as [Hv | [d Hd]]; [discriminate |].
      symmetry in Hd. by apply value_of_Datum_not_date in Hd. }
    pose proof (reifyDates_row_lookup_proto (columnTypes formatted) _ Hown)
      as Hfinal.
    split; [| split; [done |]].
    + intros key. rewrite <- date_named_spec. split.
      * intros [t Ht].
        assert (key <> "__proto__") as Hkey by (intros ->; congruence).
        split; [done |].
        destruct (mappedRow !! key) as [v |] eqn:Hv.
        -- rewrite (reifyDates_row_lookup_own _ _ _ _ Hv) in Ht.
           destruct (date_named _ _); [done |].
           injection Ht as ->. by destruct (Hstrings key _ t Hv).
        -- pose proof (reifyDates_row_lookup_inherited
                         (columnTypes formatted) _ _ Hv Hkey) as Hlookup.
           destruct (date_named _ _); [done | congruence].
      * intros [Hkey Hnamed].
        destruct (mappedRow !! key) as [v |] eqn:Hv.
        -- rewrite (reifyDates_row_lookup_own _ _ _ _ Hv), Hnamed.
           destruct (new_Date_is_date v) as [t ->]. eauto.
        -- pose proof (reifyDates_row_lookup_inherited
                         (columnTypes formatted) _ _ Hv Hkey) as Hlookup.
           rewrite Hnamed in Hlookup. destruct Hlookup as (p & Hp & _).
           destruct (new_Date_of_is_date (Inherited p key)) as [t Ht].
           exists t. by rewrite Hp, Ht.
    + by rewrite reifyDates_row_prototype, Hprototype.
Qed.

Lemma Leaf_trigger {T : Type} (e : connectorE T) (x : T) :
  Leaf x (ITree.trigger e).
Proof.
  unfold ITree.trigger. apply Leaf_Vis with (x := x). apply Leaf_Ret.
Qed.

(** The runner has the output of a one-page query among its results: the
    environment may accept the submission, report SUCCEEDED at once and
    serve a page without a token. *)
Lemma getRunner_leaf_one_page (client : AthenaClient)
    (options : ConnectorOptions) (queryText queryPath : string)
    (response : StartQueryExecutionOutput) (page : GetQueryResultsOutput)
    (formatted : MappedOutput) :
  truthy (NextToken page) = false ->
  mapQueryResults
    {| qr_rows := page_rows page;
       qr_resultSetMetadata := Some (page_metadata page) |}
  = inr formatted ->
  Leaf (inr (Some (reifyDates formatted)))
    (getRunner client options queryText queryPath).
Proof.
  intros Htoken Hmap. unfold getRunner.
  apply Leaf_bind with (b := inr (reifyDates formatted)); [| apply Leaf_Ret].
  unfold runner_try, await_bind. cbn zeta.
  apply Leaf_bind with (b := inr response); [apply Leaf_trigger |].
  apply Leaf_bind with (b := inr tt).
  { rewrite waitForQueryCompletion_unfold.
    apply Leaf_bind with (b := inr (execution_in "SUCCEEDED"));
      [apply Leaf_trigger | apply Leaf_Ret]. }
  apply Leaf_bind
    with (b := inr {| qr_rows := page_rows page;
                      qr_resultSetMetadata := Some (page_metadata page) |}).
  { unfold getQueryResults. rewrite unfold_iter.
    unfold getQueryResults_body at 1. rewrite bind_bind.
    apply Leaf_bind with (b := inr page); [apply Leaf_trigger |].
    cbn. rewrite Htoken, bind_ret_l. apply Leaf_Ret. }
  rewrite Hmap. apply Leaf_Ret.
Qed.

(** A one-page result with a date column, a null day in its second row. *)
Lemma getRunner_output_invariants_witness :
  let client := {| region := "us-east-1"; credentials := fromIni "reports" |} in
  let options :=
    {| database := "sales"; catalog := "AwsDataCatalog";
       outputBucket := "results"; testTableName := "orders" |} in
  let metadata :=
    {| ColumnInfo := [{| Name := "id"; Type_ := "integer" |};
                      {| Name := "day"; Type_ := "date" |}] |} in
  let page :=
    {| ResultSet :=
         {| Rows :=
              [{| Data := [{| VarCharValue := Some "id" |};
                           {| VarCharValue := Some "day" |}] |};
               {| Data := [{| VarCharValue := Some "1" |};
                           {| VarCharValue := Some "2024-01-15" |}] |};
               {| Data := [{| VarCharValue := Some "2" |};
                           {| VarCharValue := None |}] |}];
            ResultSetMetadata := metadata |};
       NextToken := None |} in
  exists output,
    Leaf (inr (Some output))
      (getRunner client options "select id, day from orders"
         "queries/orders.sql")
    /\ expectedRowCount output = length (rows output)
    /\ Forall (fun column => typeFidelity column = PRECISE)
         (columnTypes output)
    /\ Forall (fun row => prototype row = Object_prototype) (rows output).
Proof.
  intros client options metadata page.
  destruct (mapQueryResults
              {| qr_rows := page_rows page;
                 qr_resultSetMetadata := Some (page_metadata page) |})
    as [e | formatted] eqn:Hmap; [discriminate |].
  exists (reifyDates formatted).
  pose proof (getRunner_leaf_one_page client options
                "select id, day from orders" "queries/orders.sql"
                {| QueryExecutionId := "q-1" |} page formatted eq_refl Hmap)
    as Hleaf.
  split; [exact Hleaf |].
  destruct (getRunner_output_invariants _ _ _ _ _ Hleaf)
    as (Hcount & Htypes & Hrows).
  split; [exact Hcount |]. split; [exact Htypes |].
  apply Forall_forall. intros row Hin.
  destruct (Hrows row Hin) as (_ & _ & Hprototype).
  vm_compute in Hmap. injection Hmap as <-. exact Hprototype.
Defined.
